(** * Config2Page: authorization core and audit trail

    A shallow embedding of the Express/Prisma server of Config2Page:
    the permission middleware ([server/middleware/auth.ts]), the user
    routes ([server/routes/users.ts], in its Prisma and its older SQL
    form), the login route ([server/routes/auth.ts]), the validators of
    [models/User.ts], the audit helpers ([services/auditService.ts]) and
    the audit-log route ([routes/audit.ts]).

    Conventions of the embedding.
    - A database table is the list of its rows; [findUnique] returns the
      first row with the requested key.
    - An Express middleware or handler either calls [next()]
      ([Continue]) or sends a response ([Reply]).
    - Path and query parameters are taken after [parseInt]: an id, a
      page number and a page size are integers ([Z]), below 2^53 in
      magnitude, where JavaScript arithmetic is exact.  An id lies in
      the range of the [id] column; the routes of [GET /users/:id] are
      defined outside it as well, and the one of the SQL revision, which
      hands the text of the path to the database, takes a [PathId].
    - Request bodies are typed: an absent JSON field is [None].
    - What the database is free to choose (the order of rows the query
      does not order) is an argument of the query. *)

From Stdlib Require Import ZArith List String Ascii Bool Lia.
From Stdlib Require Import Sorting.Sorted Sorting.Permutation.
Import ListNotations.

Open Scope Z_scope.

(** ** JavaScript helpers *)

Module Js.

(** [s.includes(c)] for a one-character needle. *)
Fixpoint includes (c : ascii) (s : string) : bool :=
  match s with
  | EmptyString => false
  | String d r => Ascii.eqb c d || includes c r
  end.

(** [/[lo-hi]/.test(s)]: some character of [s] lies in the range. *)
Fixpoint test_range (lo hi : nat) (s : string) : bool :=
  match s with
  | EmptyString => false
  | String d r =>
      (Nat.leb lo (nat_of_ascii d) && Nat.leb (nat_of_ascii d) hi)
      || test_range lo hi r
  end.

Definition hasLowerCase : string -> bool := test_range 97 122.
Definition hasUpperCase : string -> bool := test_range 65 90.

(** Truthiness of an optional string field: [undefined] and the empty
    string are falsy. *)
Definition truthy (o : option string) : bool :=
  match o with
  | Some s => negb (String.eqb s EmptyString)
  | None => false
  end.

Definition lower_ascii (c : ascii) : ascii :=
  let n := nat_of_ascii c in
  if Nat.leb 65 n && Nat.leb n 90 then ascii_of_nat (n + 32) else c.

Fixpoint toLowerCase (s : string) : string :=
  match s with
  | EmptyString => EmptyString
  | String c r => String (lower_ascii c) (toLowerCase r)
  end.

End Js.

(** ** Data model *)

(** [role: 'admin' | 'moderator' | 'user'] *)
Inductive Role : Type := admin | moderator | user.

Definition Role_eqb (a b : Role) : bool :=
  match a, b with
  | admin, admin | moderator, moderator | user, user => true
  | _, _ => false
  end.

(** The [User] type of [middleware/auth.ts] (the Prisma model); dates
    are milliseconds since the epoch. *)
Record User : Type := mkUser {
  id : Z;
  first_name : string;
  last_name : string;
  email : string;
  password : string;
  role : Role;
  created_at : Z;
  updated_at : Z
}.

(** The [select] of the user routes: every column but [password]. *)
Record PublicUser : Type := mkPublicUser {
  pu_id : Z;
  pu_first_name : string;
  pu_last_name : string;
  pu_email : string;
  pu_role : Role;
  pu_created_at : Z;
  pu_updated_at : Z
}.

Definition select_public (u : User) : PublicUser :=
  mkPublicUser (id u) (first_name u) (last_name u) (email u) (role u)
               (created_at u) (updated_at u).

(** The [users] table. *)
Definition Users : Type := list User.

(** [prisma.user.findUnique({ where: { id } })] *)
Definition findUnique (db : Users) (k : Z) : option User :=
  find (fun u => id u =? k) db.

(** [prisma.user.findUnique({ where: { email } })] *)
Definition findUniqueByEmail (db : Users) (e : string) : option User :=
  find (fun u => String.eqb (email u) e) db.

Inductive Method : Type := GET | POST | PUT | DELETE.

Definition Method_eqb (a b : Method) : bool :=
  match a, b with
  | GET, GET | POST, POST | PUT, PUT | DELETE, DELETE => true
  | _, _ => false
  end.

(** [interface JwtPayload] *)
Record JwtPayload : Type := mkJwt { userId : Z; jwt_role : Role }.

(** [req.cookies.token] after [jwt.verify]: absent, rejected, or decoded. *)
Inductive Token : Type :=
| NoToken
| BadToken
| Verified (payload : JwtPayload).

(** ** Audit data ([prisma/schema.prisma], model [AuditLog]) *)

(** A JavaScript value as [logUserEdit] sees the fields of a record:
    primitives are compared by value and objects by reference.  A [Date]
    is an object holding an instant; [ref] is the identity of an object.
    Numbers are the integers of the schema. *)
Inductive JsVal : Type :=
| JUndefined
| JNull
| JBool (b : bool)
| JNum (n : Z)
| JStr (s : string)
| JObject (ref : nat)
| JDate (ref : nat) (time : Z).

(** [typeof v !== 'object' || v === null] *)
Definition primitive (v : JsVal) : bool :=
  match v with
  | JObject _ | JDate _ _ => false
  | _ => true
  end.

(** One element of [changes]: [{ field, oldValue, newValue }]. *)
Record Change : Type := mkChange {
  field : string;
  oldValue : JsVal;
  newValue : JsVal
}.

(** The [metadata] column. *)
Inductive Metadata : Type :=
| MEmpty                               (* [{}] *)
| MChanges (changes : list Change)     (* [{ changes }] *)
| MValue (v : JsVal).                  (* any other value *)

Record AuditLog : Type := mkAuditLog {
  log_id : Z;
  actor_user_id : Z;
  action_type : string;
  target_user_id : option Z;
  metadata : Metadata;
  ip_address : option string;
  log_created_at : Z
}.

(** [pagination] of the audit-log response; [pages] is a JavaScript
    number, see [Math_ceil_div]. *)
Inductive JsNumber : Type :=
| Finite (n : Z)
| Infinity
| NaN.

Record Pagination : Type := mkPagination {
  total : Z;
  page : Z;
  limit : Z;
  pages : JsNumber
}.

(** ** Responses and middleware *)

Inductive Payload : Type :=
| Message (message : string)
| MessageUser (message : string) (u : PublicUser)
| OneUser (u : PublicUser)
| UserList (users : list PublicUser)
| AuditPage (logs : list AuditLog) (pagination : Pagination).

(** [res.status(s).json(p)], with the cookie set by [res.cookie] if any. *)
Record Response : Type := mkResponse {
  status : Z;
  payload : Payload;
  cookie : option JwtPayload
}.

Definition json (s : Z) (p : Payload) : Response := mkResponse s p None.

(** What a middleware does: call [next()], possibly after attaching a
    value to the request, or answer. *)
Inductive Handled (A : Type) : Type :=
| Continue (a : A)
| Reply (r : Response).
Arguments Continue {A} a.
Arguments Reply {A} r.

(** The decision an answer stands for: a 403 is DENY with the message
    as reason (the specification writes reasons in lower case), a 200 is
    ALLOW, any other answer (401, 404, 400, 500) is not a decision.  A
    middleware that calls [next()] allows. *)
Inductive Decision : Type :=
| ALLOW
| DENY (reason : string).

Definition verdict (r : Response) : option Decision :=
  if status r =? 403 then
    match payload r with
    | Message m => Some (DENY (Js.toLowerCase m))
    | _ => None
    end
  else if status r =? 200 then Some ALLOW
  else None.

Definition decision (h : Handled unit) : option Decision :=
  match h with
  | Continue _ => Some ALLOW
  | Reply r => verdict r
  end.

(** ** Request parameters *)

(** The range of a 32-bit integer, which is what the [id] column holds. *)
Definition int4 (k : Z) : bool :=
  (-2147483648 <=? k) && (k <=? 2147483647).

(** [req.params.id] is a string.  The permission middleware and the
    Prisma routes read it with [parseInt]; the SQL routes bind the text
    itself to the [id] column, where the database reads it.  The text is
    kept as what the two readers make of it: [parsed] is the result of
    [parseInt] ([None] for [NaN]), [bound] the integer the database
    compares with [id] ([None] when it rejects the text: not an integer,
    or one outside the column's range). *)
Record PathId : Type := mkPathId {
  parsed : option Z;
  bound : option Z
}.

(** The path text that is the decimal numeral of [k]. *)
Definition decimal (k : Z) : PathId :=
  mkPathId (Some k) (if int4 k then Some k else None).

(** [req.body] of [POST /auth/login]: each field is a string or is
    missing.  A password that is not a string is to [bcrypt.compare]
    what a missing one is. *)
Record LoginBody : Type := mkLogin {
  l_email : option string;
  l_password : option string
}.

(** ** Updates of the [users] table *)

(** [req.body] of [PUT /users/:id]. *)
Record UpdateBody : Type := mkBody {
  b_first_name : option string;
  b_last_name : option string;
  b_email : option string;
  b_role : option Role;
  b_password : option string
}.

(** The [updates] object handed to [prisma.user.update]: a key is
    present when its field is [Some]. *)
Record Updates : Type := mkUpdates {
  u_first_name : option string;
  u_last_name : option string;
  u_email : option string;
  u_role : option Role;
  u_password : option string
}.

Definition or_else {A : Type} (o : option A) (d : A) : A :=
  match o with Some a => a | None => d end.

(** [Object.keys(updates).length === 0] *)
Definition updates_empty (upd : Updates) : bool :=
  match u_first_name upd, u_last_name upd, u_email upd,
        u_role upd, u_password upd with
  | None, None, None, None, None => true
  | _, _, _, _, _ => false
  end.

(** The row after an update: supplied columns are overwritten and
    [updated_at] ([@updatedAt]) is set to the current time.  With no
    column supplied nothing is written: the row, [updated_at] included,
    stays as it is. *)
Definition apply_updates (now : Z) (upd : Updates) (u : User) : User :=
  mkUser (id u)
         (or_else (u_first_name upd) (first_name u))
         (or_else (u_last_name upd) (last_name u))
         (or_else (u_email upd) (email u))
         (or_else (u_password upd) (password u))
         (or_else (u_role upd) (role u))
         (created_at u)
         (if updates_empty upd then updated_at u else now).

(** Column widths of the schema: [VarChar(100)], [VarChar(100)],
    [VarChar(255)]. *)
Definition fits_columns (upd : Updates) : bool :=
  match u_first_name upd with
  | Some s => Nat.leb (String.length s) 100 | None => true end
  && match u_last_name upd with
     | Some s => Nat.leb (String.length s) 100 | None => true end
  && match u_email upd with
     | Some s => Nat.leb (String.length s) 255 | None => true end.

(** [email String @unique]: no other row holds the new email. *)
Definition email_free (db : Users) (k : Z) (upd : Updates) : bool :=
  match u_email upd with
  | Some e =>
      negb (existsb (fun r => negb (id r =? k) && String.eqb (email r) e) db)
  | None => true
  end.

(** ** The server, Prisma version ([server/middleware/auth.ts]) *)

Module Prisma.

(** [authenticate]: the user is read from the database. *)
Definition authenticate (db : Users) (token : Token) : Handled User :=
  match token with
  | NoToken => Reply (json 401 (Message "Authentication required"))
  | BadToken => Reply (json 401 (Message "Invalid or expired token"))
  | Verified decoded =>
      match findUnique db (userId decoded) with
      | None => Reply (json 401 (Message "User not found"))
      | Some u => Continue u
      end
  end.

(** [authorize(allowedRoles)] *)
Definition authorize (allowedRoles : list Role) (req_user : option User)
  : Handled unit :=
  match req_user with
  | None => Reply (json 401 (Message "Authentication required"))
  | Some u =>
      if negb (existsb (Role_eqb (role u)) allowedRoles)
      then Reply (json 403 (Message "Access denied"))
      else Continue tt
  end.

(** [checkUserPermissions]; [after_moderator] is the code that follows
    the moderator block, reached when that block does not return. *)
Definition checkUserPermissions (db : Users) (req_user : option User)
    (method : Method) (targetUserId : Z) : Handled unit :=
  match req_user with
  | None => Reply (json 401 (Message "Authentication required"))
  | Some u =>
      if Role_eqb (role u) admin then
        if Method_eqb method DELETE && (id u =? targetUserId)
        then Reply (json 403
               (Message "Admins cannot delete their own account"))
        else Continue tt
      else
        let after_moderator :=
          if Role_eqb (role u) user then
            if negb (id u =? targetUserId)
            then Reply (json 403 (Message "Access denied"))
            else if Method_eqb method DELETE
            then Reply (json 403
                   (Message "Basic users cannot delete accounts"))
            else Continue tt
          else Reply (json 403 (Message "Access denied")) in
        if Role_eqb (role u) moderator then
          if Method_eqb method DELETE then
            match findUnique db targetUserId with
            | None => Reply (json 404 (Message "User not found"))
            | Some targetUser =>
                if negb (Role_eqb (role targetUser) user)
                then Reply (json 403
                       (Message "Moderators can only delete basic users"))
                else Continue tt
            end
          else if id u =? targetUserId then Continue tt
          else after_moderator
        else after_moderator
  end.

(** *** [server/routes/users.ts] and [server/routes/auth.ts], Prisma version *)

(** [prisma.user.update({ where: { id }, data })]: [None] when the call
    throws (no such row, or a constraint of the schema is violated).
    With an empty [data] no statement is sent and the row read is
    returned, see [apply_updates]. *)
Definition user_update (db : Users) (k : Z) (upd : Updates) (now : Z)
  : option (Users * User) :=
  match findUnique db k with
  | None => None
  | Some u =>
      if fits_columns upd && email_free db k upd
      then Some (map (fun r => if id r =? k
                               then apply_updates now upd r else r) db,
                 apply_updates now upd u)
      else None
  end.

Section Routes.

(** [bcrypt.hash(password, salt)] and [bcrypt.compare(password, hash)]. *)
Variable bcrypt_hash : string -> string -> string.
Variable bcrypt_compare : string -> string -> bool.

(** Handler of [GET /users/:id], the [try] block for an id the [id]
    column can hold. *)
Definition get_user_handler (db : Users) (req_user : option User) (k : Z)
  : Response :=
  match findUnique db k with
  | None => json 404 (Message "User not found")
  | Some found =>
      if match req_user with
         | Some u => Role_eqb (role u) user && negb (id u =? k)
         | None => false
         end
      then json 403 (Message "Access denied")
      else json 200 (OneUser (select_public found))
  end.

(** [router.get('/:id', authenticate, ...)].  For an id outside the
    range of the column [findUnique] throws and the [catch] block
    answers. *)
Definition GET_users_id (db : Users) (token : Token) (k : Z) : Response :=
  match authenticate db token with
  | Reply r => r
  | Continue u =>
      if int4 k then get_user_handler db (Some u) k
      else json 500 (Message "Error fetching user")
  end.

(** The role guard of the update handler:
    [role && (req.user?.role === 'admin' ||
              (req.user?.role === 'moderator' && existingUser.role === 'user'))] *)
Definition may_set_role (req_user : option User) (existingUser : User)
  : bool :=
  match req_user with
  | Some u =>
      Role_eqb (role u) admin
      || (Role_eqb (role u) moderator && Role_eqb (role existingUser) user)
  | None => false
  end.

Definition weak_password (p : string) : bool :=
  Nat.ltb (String.length p) 8
  || negb (Js.hasLowerCase p) || negb (Js.hasUpperCase p).

(** Handler of [PUT /users/:id]; [now] is the clock and [salt] the
    result of [bcrypt.genSalt(10)].  Returns the response and the table
    afterwards. *)
Definition put_user_handler (db : Users) (req_user : option User) (k : Z)
    (body : UpdateBody) (now : Z) (salt : string) : Response * Users :=
  match findUnique db k with
  | None => (json 404 (Message "User not found"), db)
  | Some existingUser =>
      let upd_first :=
        if Js.truthy (b_first_name body) then b_first_name body else None in
      let upd_last :=
        if Js.truthy (b_last_name body) then b_last_name body else None in
      if Js.truthy (b_email body)
         && negb (Js.includes "@" (or_else (b_email body) EmptyString))
      then (json 400 (Message "Invalid email format"), db)
      else
        let upd_email :=
          if Js.truthy (b_email body) then b_email body else None in
        let upd_role :=
          match b_role body with
          | Some r =>
              if may_set_role req_user existingUser then Some r else None
          | None => None
          end in
        if Js.truthy (b_password body)
           && weak_password (or_else (b_password body) EmptyString)
        then (json 400 (Message
          "Password must be at least 8 characters long and contain both uppercase and lowercase letters"),
              db)
        else
          let upd_password :=
            if Js.truthy (b_password body)
            then Some (bcrypt_hash
                         (or_else (b_password body) EmptyString) salt)
            else None in
          let updates :=
            mkUpdates upd_first upd_last upd_email upd_role upd_password in
          match user_update db k updates now with
          | None => (json 500 (Message "Error updating user"), db)
          | Some (db', updatedUser) =>
              (json 200 (MessageUser "User updated successfully"
                           (select_public updatedUser)), db')
          end
  end.

(** [router.put('/:id', authenticate, checkUserPermissions, ...)] *)
Definition PUT_users_id (db : Users) (token : Token) (k : Z)
    (body : UpdateBody) (now : Z) (salt : string) : Response * Users :=
  match authenticate db token with
  | Reply r => (r, db)
  | Continue u =>
      match checkUserPermissions db (Some u) PUT k with
      | Reply r => (r, db)
      | Continue _ => put_user_handler db (Some u) k body now salt
      end
  end.

(** The [try] block of [router.post('/login', ...)] for a body whose
    [email] and [password] are strings: the response; a successful login
    sets the token cookie signed for [{ userId, role }]. *)
Definition POST_login (db : Users) (email_in password_in : string)
  : Response :=
  match findUniqueByEmail db email_in with
  | None => json 401 (Message "Invalid credentials")
  | Some u =>
      if negb (bcrypt_compare password_in (password u))
      then json 401 (Message "Invalid credentials")
      else mkResponse 200
             (MessageUser "Login successful" (select_public u))
             (Some (mkJwt (id u) (role u)))
  end.

(** [router.post('/login', ...)] for any body.  Without an [email]
    [findUnique] throws; without a [password] [bcrypt.compare] throws,
    which happens only once the account has been found.  The [catch]
    block answers both. *)
Definition login (db : Users) (body : LoginBody) : Response :=
  match l_email body with
  | None => json 500 (Message "Error during login")
  | Some email_in =>
      match l_password body with
      | Some password_in => POST_login db email_in password_in
      | None =>
          match findUniqueByEmail db email_in with
          | None => json 401 (Message "Invalid credentials")
          | Some _ => json 500 (Message "Error during login")
          end
      end
  end.

End Routes.

End Prisma.

(** ** The server, SQL version

    The older revision of the same files: the token alone identifies the
    caller, and the routes run SQL through [executeQuery]. *)

Module Sql.

(** [req.user = { id: decoded.userId, role: decoded.role } as User] *)
Record ReqUser : Type := mkReqUser { ru_id : Z; ru_role : Role }.

Definition authenticate (token : Token) : Handled ReqUser :=
  match token with
  | NoToken => Reply (json 401 (Message "Authentication required"))
  | BadToken => Reply (json 401 (Message "Invalid or expired token"))
  | Verified decoded =>
      Continue (mkReqUser (userId decoded) (jwt_role decoded))
  end.

(** [checkUserPermissions]: a moderator's DELETE is let through (the
    role check of the target is a TODO in this revision). *)
Definition checkUserPermissions (req_user : option ReqUser)
    (method : Method) (targetUserId : Z) : Handled unit :=
  match req_user with
  | None => Reply (json 401 (Message "Authentication required"))
  | Some u =>
      if Role_eqb (ru_role u) admin then
        if Method_eqb method DELETE && (ru_id u =? targetUserId)
        then Reply (json 403
               (Message "Admins cannot delete their own account"))
        else Continue tt
      else
        let after_moderator :=
          if Role_eqb (ru_role u) user then
            if negb (ru_id u =? targetUserId)
            then Reply (json 403 (Message "Access denied"))
            else if Method_eqb method DELETE
            then Reply (json 403
                   (Message "Basic users cannot delete accounts"))
            else Continue tt
          else Reply (json 403 (Message "Access denied")) in
        if Role_eqb (ru_role u) moderator then
          if Method_eqb method DELETE then Continue tt
          else if ru_id u =? targetUserId then Continue tt
          else after_moderator
        else after_moderator
  end.

(** [SELECT ... FROM users WHERE id = $1] *)
Definition select_by_id (db : Users) (k : Z) : list User :=
  filter (fun u => id u =? k) db.

(** [SELECT * FROM users WHERE email = $1] *)
Definition select_by_email (db : Users) (e : string) : list User :=
  filter (fun u => String.eqb (email u) e) db.

(** [validatePassword] of [models/User.ts] *)
Definition validatePassword (p : string) : bool :=
  Nat.leb 8 (String.length p) && Js.hasLowerCase p && Js.hasUpperCase p.

(** [req.body] of [PUT /users/:id] as this revision reads it: the role
    is the string sent. *)
Record SqlBody : Type := mkSqlBody {
  sb_first_name : option string;
  sb_last_name : option string;
  sb_email : option string;
  sb_role : option string;
  sb_password : option string
}.

(** The [Partial<User>] handed to [validateUser] and to the [UPDATE]. *)
Record PartialUser : Type := mkPartial {
  p_first_name : option string;
  p_last_name : option string;
  p_email : option string;
  p_role : option string;
  p_password : option string
}.

(** [['admin', 'moderator', 'user'].includes(r)], with the role named. *)
Definition role_of_string (r : string) : option Role :=
  if String.eqb r "admin" then Some admin
  else if String.eqb r "moderator" then Some moderator
  else if String.eqb r "user" then Some user
  else None.

(** [validateUser] of [models/User.ts]: [None] when valid, else the
    error. *)
Definition validateUser (u : PartialUser) : option string :=
  if negb (match p_email u with
           | Some e => Js.includes "@" e
           | None => false
           end)
  then Some "Invalid email format"%string
  else if Js.truthy (p_password u)
          && negb (validatePassword (or_else (p_password u) EmptyString))
  then Some "Password must be at least 8 characters long and contain both uppercase and lowercase letters"%string
  else if Js.truthy (p_role u)
          && match role_of_string (or_else (p_role u) EmptyString) with
             | Some _ => false
             | None => true
             end
  then Some "Invalid role"%string
  else None.

(** The values bound to the [UPDATE]: the role column holds one of the
    three names ([validateUser] has let nothing else through). *)
Definition bound_updates (u : PartialUser) : Updates :=
  mkUpdates (p_first_name u) (p_last_name u) (p_email u)
            (match p_role u with
             | Some r => role_of_string r
             | None => None
             end)
            (p_password u).

Definition no_keys (upd : Updates) : bool :=
  match u_first_name upd, u_last_name upd, u_email upd,
        u_role upd, u_password upd with
  | None, None, None, None, None => true
  | _, _, _, _, _ => false
  end.

(** [UPDATE users SET <keys of updates>, updated_at = CURRENT_TIMESTAMP
    WHERE id = $1 RETURNING ...]: [None] when the statement fails (an
    empty key list is a syntax error; a constraint of the table is
    violated), else the table and the returned rows. *)
Definition sql_update (db : Users) (k : Z) (upd : Updates) (now : Z)
  : option (Users * list User) :=
  if no_keys upd then None
  else if fits_columns upd && email_free db k upd
  then Some (map (fun r => if id r =? k
                           then apply_updates now upd r else r) db,
             map (apply_updates now upd) (select_by_id db k))
  else None.

Section Routes.

Variable bcrypt_hash : string -> string -> string.
Variable bcrypt_compare : string -> string -> bool.

(** Handler of [GET /users/:id].  The text of the path is bound to the
    query; the permission check compares with [parseInt(id)], and
    [req.user.id !== NaN] holds.  When the database rejects the text the
    [catch] block answers. *)
Definition get_user_handler (db : Users) (req_user : option ReqUser)
    (path : PathId) : Response :=
  match bound path with
  | None => json 500 (Message "Error fetching user")
  | Some k =>
      match select_by_id db k with
      | [] => json 404 (Message "User not found")
      | found :: _ =>
          if match req_user with
             | Some u =>
                 Role_eqb (ru_role u) user
                 && negb match parsed path with
                         | Some n => ru_id u =? n
                         | None => false
                         end
             | None => false
             end
          then json 403 (Message "Access denied")
          else json 200 (OneUser (select_public found))
      end
  end.

Definition GET_users_id (db : Users) (token : Token) (path : PathId)
  : Response :=
  match authenticate token with
  | Reply r => r
  | Continue u => get_user_handler db (Some u) path
  end.

Definition may_set_role (req_user : option ReqUser) (existingUser : User)
  : bool :=
  match req_user with
  | Some u =>
      Role_eqb (ru_role u) admin
      || (Role_eqb (ru_role u) moderator
          && Role_eqb (role existingUser) user)
  | None => false
  end.

(** Handler of [PUT /users/:id], for a path the database reads as the
    integer [parseInt] gives. *)
Definition put_user_handler (db : Users) (req_user : option ReqUser)
    (k : Z) (body : SqlBody) (now : Z) (salt : string)
  : Response * Users :=
  match select_by_id db k with
  | [] => (json 404 (Message "User not found"), db)
  | existingUser :: _ =>
      let upd_first :=
        if Js.truthy (sb_first_name body) then sb_first_name body else None in
      let upd_last :=
        if Js.truthy (sb_last_name body) then sb_last_name body else None in
      let upd_email :=
        if Js.truthy (sb_email body) then sb_email body else None in
      let upd_role :=
        if Js.truthy (sb_role body) && may_set_role req_user existingUser
        then sb_role body else None in
      match validateUser
              (mkPartial upd_first upd_last upd_email upd_role None) with
      | Some error => (json 400 (Message error), db)
      | None =>
          let upd_password :=
            if Js.truthy (sb_password body)
            then Some (bcrypt_hash
                         (or_else (sb_password body) EmptyString) salt)
            else None in
          let updates :=
            bound_updates
              (mkPartial upd_first upd_last upd_email upd_role
                         upd_password) in
          match sql_update db k updates now with
          | None => (json 500 (Message "Error updating user"), db)
          | Some (db', []) =>
              (json 200 (Message "User updated successfully"), db')
          | Some (db', updated :: _) =>
              (json 200 (MessageUser "User updated successfully"
                           (select_public updated)), db')
          end
      end
  end.

Definition PUT_users_id (db : Users) (token : Token) (k : Z)
    (body : SqlBody) (now : Z) (salt : string) : Response * Users :=
  match authenticate token with
  | Reply r => (r, db)
  | Continue u =>
      match checkUserPermissions (Some u) PUT k with
      | Reply r => (r, db)
      | Continue _ => put_user_handler db (Some u) k body now salt
      end
  end.

(** The [try] block of [router.post('/login', ...)] for a body whose
    [email] and [password] are strings. *)
Definition POST_login (db : Users) (email_in password_in : string)
  : Response :=
  match select_by_email db email_in with
  | [] => json 401 (Message "Invalid credentials")
  | u :: _ =>
      if negb (bcrypt_compare password_in (password u))
      then json 401 (Message "Invalid credentials")
      else mkResponse 200
             (MessageUser "Login successful" (select_public u))
             (Some (mkJwt (id u) (role u)))
  end.

(** [router.post('/login', ...)] for any body.  A missing [email] is
    bound as [NULL], which selects no row; without a [password]
    [bcrypt.compare] throws once a row has been found. *)
Definition login (db : Users) (body : LoginBody) : Response :=
  match l_email body with
  | None => json 401 (Message "Invalid credentials")
  | Some email_in =>
      match l_password body with
      | Some password_in => POST_login db email_in password_in
      | None =>
          match select_by_email db email_in with
          | [] => json 401 (Message "Invalid credentials")
          | _ :: _ => json 500 (Message "Error during login")
          end
      end
  end.

End Routes.

End Sql.

(** ** The audit trail ([services/auditService.ts], [routes/audit.ts]) *)

Module Audit.

(** [AUDIT_TYPES] *)
Definition LOGIN_SUCCESS : string := "LOGIN_SUCCESS".
Definition LOGIN_FAILURE : string := "LOGIN_FAILURE".
Definition LOGOUT : string := "LOGOUT".
Definition CREATE_USER : string := "CREATE_USER".
Definition EDIT_USER : string := "EDIT_USER".
Definition DELETE_USER : string := "DELETE_USER".

(** The [audit_logs] table with its [SERIAL] id sequence. *)
Record AuditStore : Type := mkStore {
  rows : list AuditLog;
  next_id : Z
}.

(** A JavaScript object: its own properties in insertion order. *)
Definition JsObject : Type := list (string * JsVal).

(** [o[key]]: [undefined] when the property is absent. *)
Definition get (o : JsObject) (key : string) : JsVal :=
  match find (fun kv => String.eqb (fst kv) key) o with
  | Some kv => snd kv
  | None => JUndefined
  end.

Definition Object_keys (o : JsObject) : list string := map fst o.

(** [a === b] *)
Definition strict_eq (a b : JsVal) : bool :=
  match a, b with
  | JUndefined, JUndefined => true
  | JNull, JNull => true
  | JBool x, JBool y => Bool.eqb x y
  | JNum x, JNum y => x =? y
  | JStr x, JStr y => String.eqb x y
  | JObject r1, JObject r2 => Nat.eqb r1 r2
  | JDate r1 _, JDate r2 _ => Nat.eqb r1 r2
  | _, _ => false
  end.

Definition falsy (v : JsVal) : bool :=
  match v with
  | JUndefined | JNull | JBool false | JNum 0 => true
  | JStr s => String.eqb s EmptyString
  | _ => false
  end.

(** [metadata || {}] *)
Definition metadata_or_empty (m : option Metadata) : Metadata :=
  match m with
  | None => MEmpty
  | Some (MValue v) => if falsy v then MEmpty else MValue v
  | Some other => other
  end.

Definition has_user (users : Users) (k : Z) : bool :=
  existsb (fun u => id u =? k) users.

(** [logUserAction]: [prisma.auditLog.create].  The row gets the next id
    of the sequence and the current time.  [None] when the insert is
    rejected: [actor_user_id] and [target_user_id] reference [users],
    [ip_address] is a [VarChar(45)]. *)
Definition logUserAction (users : Users) (st : AuditStore) (now : Z)
    (actorId : Z) (actionType : string) (targetId : option Z)
    (meta : option Metadata) (ipAddress : option string)
  : option (AuditStore * AuditLog) :=
  if has_user users actorId
     && match targetId with Some t => has_user users t | None => true end
     && match ipAddress with
        | Some a => Nat.leb (String.length a) 45 | None => true end
  then
    let entry := mkAuditLog (next_id st) actorId actionType targetId
                   (metadata_or_empty meta) ipAddress now in
    Some (mkStore (rows st ++ [entry]) (next_id st + 1), entry)
  else None.

(** The loop of [logUserEdit] over [Object.keys(newData)]. *)
Fixpoint collect_changes (oldData newData : JsObject) (keys : list string)
  : list Change :=
  match keys with
  | [] => []
  | key :: rest =>
      if negb (strict_eq (get oldData key) (get newData key))
      then mkChange key (get oldData key) (get newData key)
             :: collect_changes oldData newData rest
      else collect_changes oldData newData rest
  end.

Definition edit_changes (oldData newData : JsObject) : list Change :=
  collect_changes oldData newData (Object_keys newData).

(** [logUserEdit]: [None] when the insert is rejected; otherwise the
    store afterwards and the entry written, if any. *)
Definition logUserEdit (users : Users) (st : AuditStore) (now : Z)
    (actorId targetId : Z) (oldData newData : JsObject)
    (ipAddress : option string)
  : option (AuditStore * option AuditLog) :=
  let changes := edit_changes oldData newData in
  if Nat.ltb 0 (List.length changes)
  then match logUserAction users st now actorId EDIT_USER (Some targetId)
               (Some (MChanges changes)) ipAddress with
       | Some (st', entry) => Some (st', Some entry)
       | None => None
       end
  else Some (st, None).

(** *** [GET /audit/logs] *)

(** [req.query] after parsing: [from] and [to] are the instants of the
    supplied date strings. *)
Record LogsQuery : Type := mkQuery {
  q_from : option Z;
  q_to : option Z;
  q_action_type : option string;
  q_page : option Z;
  q_limit : option Z
}.

(** The [where] clause built from the query. *)
Definition matches (q : LogsQuery) (e : AuditLog) : bool :=
  (if Js.truthy (q_action_type q)
   then String.eqb (action_type e) (or_else (q_action_type q) EmptyString)
   else true)
  && match q_from q with Some f => f <=? log_created_at e | None => true end
  && match q_to q with Some t => log_created_at e <=? t | None => true end.

(** [orderBy: { created_at: 'desc' }].  The query names no second key:
    among rows with equal [created_at] the database returns the order it
    pleases, and need not repeat it at the next query.  That choice is
    the argument [tie]: [tie x y] puts [x] before [y]. *)
Definition TieOrder : Type := AuditLog -> AuditLog -> bool.

Fixpoint insert_desc (tie : TieOrder) (x : AuditLog) (l : list AuditLog)
  : list AuditLog :=
  match l with
  | [] => [x]
  | y :: r =>
      if (log_created_at y <? log_created_at x)
         || ((log_created_at y =? log_created_at x) && tie x y)
      then x :: y :: r
      else y :: insert_desc tie x r
  end.

Fixpoint orderBy_created_at_desc (tie : TieOrder) (l : list AuditLog)
  : list AuditLog :=
  match l with
  | [] => []
  | x :: r => insert_desc tie x (orderBy_created_at_desc tie r)
  end.

(** The rows a query selects, in the order requested. *)
Definition ordered_matches (tie : TieOrder) (st : AuditStore)
    (q : LogsQuery) : list AuditLog :=
  orderBy_created_at_desc tie (filter (matches q) (rows st)).

(** [prisma.auditLog.findMany({ where, orderBy, skip, take })] for
    [skip] and [take] of at most 32 bits.  Prisma rejects a negative
    [skip] (the call throws); a negative [take] counts from the end of
    the ordered rows. *)
Definition findMany (tie : TieOrder) (st : AuditStore) (q : LogsQuery)
    (skip take : Z) : option (list AuditLog) :=
  if skip <? 0 then None
  else if 0 <=? take
  then Some (firstn (Z.to_nat take)
               (skipn (Z.to_nat skip) (ordered_matches tie st q)))
  else Some (rev (firstn (Z.to_nat (- take))
                    (skipn (Z.to_nat skip)
                       (rev (ordered_matches tie st q))))).

(** [prisma.auditLog.count({ where })] *)
Definition count (st : AuditStore) (q : LogsQuery) : Z :=
  Z.of_nat (List.length (filter (matches q) (rows st))).

(** [Math.ceil(total / limitNum)] for a count [t >= 0] and an integer
    [s]: division by zero gives [Infinity], or [NaN] for [0 / 0]. *)
Definition Math_ceil_div (t s : Z) : JsNumber :=
  if s =? 0 then (if t =? 0 then NaN else Infinity)
  else Finite (- ((- t) / s)).

(** The handler of [GET /audit/logs]; [tie] is the order the database
    gives, at this request, to rows written at the same instant. *)
Definition get_logs_handler (tie : TieOrder) (st : AuditStore)
    (q : LogsQuery) : Response :=
  let pageNum := or_else (q_page q) 1 in
  let limitNum := or_else (q_limit q) 20 in
  match findMany tie st q ((pageNum - 1) * limitNum) limitNum with
  | None => json 500 (Message "Error fetching audit logs")
  | Some logs =>
      let total := count st q in
      json 200 (AuditPage logs
                  (mkPagination total pageNum limitNum
                     (Math_ceil_div total limitNum)))
  end.

(** [router.get('/logs', authenticate, authorize(['admin']), ...)] *)
Definition GET_audit_logs (tie : TieOrder) (users : Users)
    (st : AuditStore) (token : Token) (q : LogsQuery) : Response :=
  match Prisma.authenticate users token with
  | Reply r => r
  | Continue u =>
      match Prisma.authorize [admin] (Some u) with
      | Reply r => r
      | Continue _ => get_logs_handler tie st q
      end
  end.

End Audit.

(** ** Requests without the role field *)

(** The same body with the [role] key removed. *)
Definition without_role (body : UpdateBody) : UpdateBody :=
  mkBody (b_first_name body) (b_last_name body) (b_email body) None
         (b_password body).


(** ** What an update stores *)

(** A non-role field as stored: a non-empty value sent replaces the
    column, an absent or empty one leaves it. *)
Definition stored_field (sent : option string) (old : string) : string :=
  if Js.truthy sent then or_else sent EmptyString else old.

(** The four non-role columns of [updated] are the fields sent, laid
    over the row [target]; the password is stored as its hash. *)
Definition fields_applied (hash : string -> string)
    (first last em pw : option string) (target updated : User) : Prop :=
  first_name updated = stored_field first (first_name target) /\
  last_name updated = stored_field last (last_name target) /\
  email updated = stored_field em (email target) /\
  password updated
  = (if Js.truthy pw then hash (or_else pw EmptyString)
     else password target).

(** A text the database stores: it holds no NUL character. *)
Definition storable (s : string) : Prop :=
  Js.includes Ascii.zero s = false.

(** The fields sent fit the table: storable names of at most 100
    characters, a storable email of at most 255 that contains "@" and
    that no other row holds. *)
Definition fields_fit (db : Users) (k : Z) (first last em : option string)
  : Prop :=
  (forall f, first = Some f -> storable f /\ (String.length f <= 100)%nat) /\
  (forall l, last = Some l -> storable l /\ (String.length l <= 100)%nat) /\
  (forall e, em = Some e -> e <> EmptyString ->
     Js.includes "@" e = true /\ storable e /\
     (String.length e <= 255)%nat /\
     forall r, In r db -> id r <> k -> email r <> e).

(** Whether an update writes at all: some non-role field sent is not
    empty, or the role is set. *)
Definition writes_something (first last em pw : option string)
    (role_set : bool) : bool :=
  Js.truthy first || Js.truthy last || Js.truthy em || Js.truthy pw
  || role_set.

(** The id and role of every row: what a role change would alter. *)
Definition roles_of (db : Users) : list (Z * Role) :=
  map (fun u => (id u, role u)) db.

(** ** The edit diff as the specification words it *)

(** A field differs between the two images when its value in one is not
    its value in the other, whichever image holds it. *)
Definition spec_field_differs (oldData newData : Audit.JsObject)
    (key : string) : Prop :=
  Audit.get oldData key <> Audit.get newData key.

(** Images of Bob used in the examples: the row read before the update
    (with its password hash) and the selected row returned after it. *)
Definition bob_before : Audit.JsObject :=
  [("id", JNum 2); ("first_name", JStr "Bob"); ("email", JStr "bob@example.com");
   ("password", JStr "$2a$10$bob"); ("role", JStr "user")]%string.
Definition bob_after : Audit.JsObject :=
  [("id", JNum 2); ("first_name", JStr "Bob"); ("email", JStr "bob@example.com");
   ("role", JStr "user")]%string.
Definition bob_renamed : Audit.JsObject :=
  [("id", JNum 2); ("first_name", JStr "Robert");
   ("email", JStr "bob@example.com"); ("role", JStr "user")]%string.

Definition empty_store : Audit.AuditStore := Audit.mkStore [] 1.

(** ** Orders on audit entries *)

(** What [orderBy: { created_at: 'desc' }] asks of two consecutive rows. *)
Definition newer_or_equal (a b : AuditLog) : Prop :=
  log_created_at b <= log_created_at a.

(** The order as the specification words it: strictly descending by
    [createdAt], ties broken by descending [id]. *)
Definition spec_before (a b : AuditLog) : Prop :=
  log_created_at b < log_created_at a
  \/ (log_created_at a = log_created_at b /\ log_id b < log_id a).

(** Twenty-five entries written one per second, ids 1 to 25. *)
Definition sample_entry (i : nat) : AuditLog :=
  mkAuditLog (Z.of_nat i) 1 Audit.LOGIN_SUCCESS None MEmpty None
             (1000 * Z.of_nat i).
Definition twenty_five : Audit.AuditStore :=
  Audit.mkStore (map sample_entry (seq 1 25)) 26.

(** Two entries written within the same millisecond. *)
Definition first_of_two : AuditLog :=
  mkAuditLog 1 1 Audit.LOGIN_SUCCESS None MEmpty None 5000.
Definition second_of_two : AuditLog :=
  mkAuditLog 2 1 Audit.LOGOUT None MEmpty None 5000.
Definition same_instant : Audit.AuditStore :=
  Audit.mkStore [first_of_two; second_of_two] 3.

Definition no_filter (pg lim : option Z) : Audit.LogsQuery :=
  Audit.mkQuery None None None pg lim.

(** Two orders a database may give to rows of the same instant. *)
Definition later_id_first : Audit.TieOrder :=
  fun x y => log_id y <? log_id x.
Definition earlier_id_first : Audit.TieOrder :=
  fun x y => log_id x <? log_id y.

(** ** The delete table as the specification words it *)

(** DELETE: admin any target except itself; moderator only a target of
    role user; user never, with the reason "basic users cannot delete
    accounts". *)
Definition spec_decide_DELETE (actor target : User) : Decision :=
  match role actor with
  | admin =>
      if id target =? id actor
      then DENY "admins cannot delete their own account"
      else ALLOW
  | moderator =>
      if Role_eqb (role target) user
      then ALLOW
      else DENY "moderators can only delete basic users"
  | user => DENY "basic users cannot delete accounts"
  end.

(** ** A small directory used in the examples *)

Definition alice : User :=
  mkUser 1 "Alice" "Stone" "alice@example.com" "$2a$10$alice" admin 1000 1000.
Definition bob : User :=
  mkUser 2 "Bob" "Reed" "bob@example.com" "$2a$10$bob" user 2000 2000.
Definition mona : User :=
  mkUser 3 "Mona" "Hale" "mona@example.com" "$2a$10$mona" moderator 3000 3000.
Definition carol : User :=
  mkUser 4 "Carol" "Lake" "carol@example.com" "$2a$10$carol" user 4000 4000.

Definition directory : Users := [alice; bob; mona; carol].

(** A stand-in for bcrypt in the examples: the hash is the salt followed
    by the password. *)
Definition toy_hash (p salt : string) : string := (salt ++ p)%string.
Definition toy_compare (p h : string) : bool :=
  String.eqb h (toy_hash p "$2a$10$").

(** ** Further routes of the Prisma version

    [POST /users], [GET /users] and [DELETE /users/:id] of
    [server/routes/users.ts]; [POST /auth/init-admin] and
    [GET /auth/session] of [server/routes/auth.ts]. *)

Module PrismaRoutes.

(** [prisma.user.create({ data })].  [first_name] and [last_name] are
    required columns, [role] defaults to [user], [id] is the value
    [new_id] the sequence supplies, both dates default to the current
    time.  [None] when the call throws: a required field is missing, a
    column is too narrow, or the primary key or the unique email is
    already taken. *)
Definition user_create (db : Users) (new_id : Z)
    (first last : option string) (e hashed : string) (r : option Role)
    (now : Z) : option (Users * User) :=
  match first, last with
  | Some f, Some l =>
      if Nat.leb (String.length f) 100 && Nat.leb (String.length l) 100
         && Nat.leb (String.length e) 255
         && negb (existsb (fun row => String.eqb (email row) e) db)
         && negb (existsb (fun row => id row =? new_id) db)
      then let created := mkUser new_id f l e hashed (or_else r user)
                            now now in
           Some (db ++ [created], created)
      else None
  | _, _ => None
  end.

(** [ON DELETE SET NULL] of [audit_logs.target_user_id]. *)
Definition clear_target (k : Z) (e : AuditLog) : AuditLog :=
  match target_user_id e with
  | Some t =>
      if t =? k
      then mkAuditLog (log_id e) (actor_user_id e) (action_type e) None
             (metadata e) (ip_address e) (log_created_at e)
      else e
  | None => e
  end.

(** [prisma.user.delete({ where: { id } })] under the foreign keys of
    [audit_logs]: [actor_user_id] is [ON DELETE RESTRICT], so a user who
    is the actor of an entry cannot be deleted; [target_user_id] is
    [ON DELETE SET NULL].  [None] when the call throws. *)
Definition user_delete (db : Users) (st : Audit.AuditStore) (k : Z)
  : option (Users * Audit.AuditStore) :=
  match findUnique db k with
  | None => None
  | Some _ =>
      if existsb (fun e => actor_user_id e =? k) (Audit.rows st)
      then None
      else Some (filter (fun u => negb (id u =? k)) db,
                 Audit.mkStore (map (clear_target k) (Audit.rows st))
                               (Audit.next_id st))
  end.

(** [checkFirstUser]: [prisma.user.count() === 0] *)
Definition checkFirstUser (db : Users) : bool :=
  Z.of_nat (List.length db) =? 0.

(** The [select] of [init-admin]: id, names, email and role. *)
Record AdminSummary : Type := mkSummary {
  as_id : Z;
  as_first_name : string;
  as_last_name : string;
  as_email : string;
  as_role : Role
}.

(** What [init-admin] sends: an error, or 201 with the message, the new
    admin and the token cookie. *)
Inductive InitAdminResult : Type :=
| InitReply (r : Response)
| InitCreated (message : string) (u : AdminSummary) (token : JwtPayload).

(** [req.body] of [init-admin]. *)
Record InitBody : Type := mkInitBody {
  i_first_name : option string;
  i_last_name : option string;
  i_email : option string;
  i_password : option string
}.

Section Routes.

Variable bcrypt_hash : string -> string -> string.

(** Handler of [POST /users].  A missing password makes
    [password.length] throw, which the catch block answers with 500. *)
Definition create_user_handler (db : Users) (req_user : option User)
    (body : UpdateBody) (new_id now : Z) (salt : string)
  : Response * Users :=
  if negb (match req_user with
           | Some u => Role_eqb (role u) admin
           | None => false
           end)
  then (json 403 (Message "Only admin can create users"), db)
  else if negb (match b_email body with
                | Some e => Js.includes "@" e
                | None => false
                end)
  then (json 400 (Message "Invalid email format"), db)
  else
    match b_password body with
    | None => (json 500 (Message "Error creating user"), db)
    | Some p =>
        if Prisma.weak_password p
        then (json 400 (Message
          "Password must be at least 8 characters long and contain both uppercase and lowercase letters"),
              db)
        else
          match user_create db new_id (b_first_name body)
                  (b_last_name body) (or_else (b_email body) EmptyString)
                  (bcrypt_hash p salt) (b_role body) now with
          | None => (json 500 (Message "Error creating user"), db)
          | Some (db', newUser) =>
              (json 201 (MessageUser "User created successfully"
                           (select_public newUser)), db')
          end
    end.

(** [router.post('/', authenticate, ...)] *)
Definition POST_users (db : Users) (token : Token) (body : UpdateBody)
    (new_id now : Z) (salt : string) : Response * Users :=
  match Prisma.authenticate db token with
  | Reply r => (r, db)
  | Continue u => create_user_handler db (Some u) body new_id now salt
  end.

(** [router.get('/', authenticate, ...)] *)
Definition GET_users (db : Users) (token : Token) : Response :=
  match Prisma.authenticate db token with
  | Reply r => r
  | Continue _ => json 200 (UserList (map select_public db))
  end.

(** Handler of [DELETE /users/:id]. *)
Definition delete_user_handler (db : Users) (st : Audit.AuditStore)
    (k : Z) : Response * (Users * Audit.AuditStore) :=
  match findUnique db k with
  | None => (json 404 (Message "User not found"), (db, st))
  | Some _ =>
      match user_delete db st k with
      | None => (json 500 (Message "Error deleting user"), (db, st))
      | Some after => (json 200 (Message "User deleted successfully"), after)
      end
  end.

(** [router.delete('/:id', authenticate, checkUserPermissions, ...)] *)
Definition DELETE_users_id (db : Users) (st : Audit.AuditStore)
    (token : Token) (k : Z) : Response * (Users * Audit.AuditStore) :=
  match Prisma.authenticate db token with
  | Reply r => (r, (db, st))
  | Continue u =>
      match Prisma.checkUserPermissions db (Some u) DELETE k with
      | Reply r => (r, (db, st))
      | Continue _ => delete_user_handler db st k
      end
  end.

(** [router.post('/init-admin', ...)] *)
Definition POST_init_admin (db : Users) (body : InitBody)
    (new_id now : Z) (salt : string) : InitAdminResult * Users :=
  if negb (checkFirstUser db)
  then (InitReply (json 403 (Message "Admin already exists")), db)
  else if negb (match i_email body with
                | Some e => Js.includes "@" e
                | None => false
                end)
  then (InitReply (json 400 (Message "Invalid email format")), db)
  else
    match i_password body with
    | None => (InitReply (json 500 (Message "Error creating admin user")), db)
    | Some p =>
        if Prisma.weak_password p
        then (InitReply (json 400 (Message
          "Password must be at least 8 characters long and contain both uppercase and lowercase letters")),
              db)
        else
          match user_create db new_id (i_first_name body)
                  (i_last_name body) (or_else (i_email body) EmptyString)
                  (bcrypt_hash p salt) (Some admin) now with
          | None =>
              (InitReply (json 500 (Message "Error creating admin user")),
               db)
          | Some (db', newUser) =>
              (InitCreated "Admin user created successfully"
                 (mkSummary (id newUser) (first_name newUser)
                    (last_name newUser) (email newUser) (role newUser))
                 (mkJwt (id newUser) (role newUser)), db')
          end
    end.

(** [router.get('/session', authenticate, ...)] *)
Definition GET_session (db : Users) (token : Token) : Response :=
  match Prisma.authenticate db token with
  | Reply r => r
  | Continue u => json 200 (OneUser (select_public u))
  end.

End Routes.

End PrismaRoutes.

(** ** [DELETE /users/:id] of the SQL version *)

Module SqlRoutes.

(** Handler: [SELECT] the row, then [DELETE FROM users WHERE id = $1]. *)
Definition delete_user_handler (db : Users) (k : Z) : Response * Users :=
  match Sql.select_by_id db k with
  | [] => (json 404 (Message "User not found"), db)
  | _ :: _ =>
      (json 200 (Message "User deleted successfully"),
       filter (fun u => negb (id u =? k)) db)
  end.

Definition DELETE_users_id (db : Users) (token : Token) (k : Z)
  : Response * Users :=
  match Sql.authenticate token with
  | Reply r => (r, db)
  | Continue u =>
      match Sql.checkUserPermissions (Some u) DELETE k with
      | Reply r => (r, db)
      | Continue _ => delete_user_handler db k
      end
  end.

End SqlRoutes.

(** ** The client ([client/src/pages/UserManagementPage.tsx]) *)

Module Client.

(** [canEdit]: whether the edit button of a row is shown. *)
Definition canEdit (currentUser : option PublicUser)
    (targetUser : PublicUser) : bool :=
  match currentUser with
  | None => false
  | Some cur =>
      if Role_eqb (pu_role cur) admin then true
      else if Role_eqb (pu_role cur) moderator
      then Role_eqb (pu_role targetUser) user
           || (pu_id targetUser =? pu_id cur)
      else pu_id targetUser =? pu_id cur
  end.

(** [canDelete]: whether the delete button of a row is shown. *)
Definition canDelete (currentUser : option PublicUser)
    (targetUser : PublicUser) : bool :=
  match currentUser with
  | None => false
  | Some cur =>
      if Role_eqb (pu_role cur) admin
      then negb (pu_id targetUser =? pu_id cur)
      else if Role_eqb (pu_role cur) moderator
      then Role_eqb (pu_role targetUser) user
      else false
  end.

End Client.

(** ** [server/middleware/ipCapture.ts] *)

Module IpCapture.

(** White space and line terminators of [String.prototype.trim] among
    the characters a header value can hold (codes 0 to 255). *)
Definition is_space (c : ascii) : bool :=
  let n := nat_of_ascii c in
  (Nat.leb 9 n && Nat.leb n 13) || Nat.eqb n 32 || Nat.eqb n 160.

(** [s.split(',')[0]]: the text before the first comma. *)
Fixpoint before_comma (s : string) : string :=
  match s with
  | EmptyString => EmptyString
  | String c r =>
      if Ascii.eqb c "," then EmptyString else String c (before_comma r)
  end.

Fixpoint trimStart (s : string) : string :=
  match s with
  | EmptyString => EmptyString
  | String c r => if is_space c then trimStart r else s
  end.

Fixpoint trimEnd (s : string) : string :=
  match s with
  | EmptyString => EmptyString
  | String c r =>
      match trimEnd r with
      | EmptyString => if is_space c then EmptyString
                       else String c EmptyString
      | rest => String c rest
      end
  end.

Definition trim (s : string) : string := trimEnd (trimStart s).

(** [captureIp]: the value stored in [req.clientIp], from the
    [X-Forwarded-For] header and the socket's remote address. *)
Definition captureIp (forwarded remoteAddress : option string) : string :=
  let source :=
    if Js.truthy forwarded then or_else forwarded EmptyString
    else if Js.truthy remoteAddress then or_else remoteAddress EmptyString
    else "unknown"%string in
  trim (before_comma source).

End IpCapture.

(** ** Invariants of the two tables *)

(** Primary key and unique email of [users]. *)
Definition users_unique (db : Users) : Prop :=
  NoDup (map id db) /\ NoDup (map email db).

(** The foreign keys of [audit_logs]: every actor and every target of an
    entry is a row of [users]. *)
Definition references_hold (db : Users) (st : Audit.AuditStore) : Prop :=
  forall e, In e (Audit.rows st) ->
    Audit.has_user db (actor_user_id e) = true /\
    (forall t, target_user_id e = Some t -> Audit.has_user db t = true).

(** The id sequence is ahead of every entry written. *)
Definition sequence_ahead (st : Audit.AuditStore) : Prop :=
  Forall (fun e => log_id e < Audit.next_id st) (Audit.rows st).

(** The entries of an audit-log answer. *)
Definition logs_of (r : Response) : list AuditLog :=
  match payload r with
  | AuditPage logs _ => logs
  | _ => []
  end.

(** The answer to page [p] of a query, at a request where the database
    orders ties by [tie]. *)
Definition page_of (tie : Audit.TieOrder) (st : Audit.AuditStore)
    (q : Audit.LogsQuery) (p : Z) : list AuditLog :=
  logs_of (Audit.get_logs_handler tie st
             (Audit.mkQuery (Audit.q_from q) (Audit.q_to q)
                (Audit.q_action_type q) (Some p) (Audit.q_limit q))).

(** A third entry, written after the two of [same_instant]. *)
Definition third_entry : AuditLog :=
  mkAuditLog 3 1 Audit.LOGOUT None MEmpty None 9000.
Definition three_entries : Audit.AuditStore :=
  Audit.mkStore [first_of_two; second_of_two; third_entry] 4.

(** * Properties *)

Lemma findUnique_id (db : Users) (k : Z) (u : User) :
  findUnique db k = Some u -> id u = k.
Proof.
  unfold findUnique. intros H.
  apply find_some in H. destruct H as [_ H].
  now apply Z.eqb_eq.
Qed.

(** [find] is the head of [filter]: the SQL routes read [rows[0]] where
    the Prisma routes call [findUnique]. *)
Lemma find_head_filter {A : Type} (f : A -> bool) (l : list A) :
  find f l = hd_error (filter f l).
Proof.
  induction l as [|a l IH]; simpl; [reflexivity|].
  destruct (f a); [reflexivity | exact IH].
Qed.

Lemma select_by_id_find (db : Users) (k : Z) :
  hd_error (Sql.select_by_id db k) = findUnique db k.
Proof. symmetry. apply find_head_filter. Qed.


(** *** The permission middleware *)

(** What [checkUserPermissions] answers to a moderator's request other
    than DELETE: only the moderator's own id passes. *)
Lemma moderator_non_delete (db : Users) (actor : User) (m : Method)
    (k : Z) :
  role actor = moderator -> m <> DELETE ->
  Prisma.checkUserPermissions db (Some actor) m k =
    if id actor =? k then Continue tt
    else Reply (json 403 (Message "Access denied")).
Proof.
  intros Hr Hm. unfold Prisma.checkUserPermissions. rewrite Hr. simpl.
  destruct m; try congruence; simpl; reflexivity.
Qed.

(** The update decisions as coded: an admin is allowed on every id; a
    moderator and a user are allowed on their own id only. *)
Lemma update_decision_as_coded (db : Users) (actor : User) (k : Z) :
  decision (Prisma.checkUserPermissions db (Some actor) PUT k)
  = Some match role actor with
         | admin => ALLOW
         | moderator | user =>
             if id actor =? k then ALLOW else DENY "access denied"
         end.
Proof.
  unfold Prisma.checkUserPermissions.
  destruct (role actor); simpl; try reflexivity;
    destruct (id actor =? k); reflexivity.
Qed.

(** C3 (defect). A moderator (id 3) updating a basic user (id 4, role
    user) is answered 403 "Access denied", although the comment above
    the moderator block reads "Moderator can edit basic users and their
    own details". *)
Theorem moderator_update_of_basic_user_denied :
  findUnique directory 4 = Some carol /\ role carol = user /\
  role mona = moderator /\
  Prisma.checkUserPermissions directory (Some mona) PUT 4
    = Reply (json 403 (Message "Access denied")) /\
  decision (Prisma.checkUserPermissions directory (Some mona) PUT 4)
    = Some (DENY "access denied").
Proof. repeat split; reflexivity. Qed.

(** C4 (amended). DELETE decisions of [checkUserPermissions] for a
    stored target: an admin is allowed unless the target is itself
    ("admins cannot delete their own account"); a moderator is allowed
    exactly when the target's role is user ("moderators can only delete
    basic users" otherwise); a user is always denied, with "basic users
    cannot delete accounts" for its own id and "access denied" for any
    other id. *)
Theorem delete_decision_table (db : Users) (actor target : User) :
  findUnique db (id target) = Some target ->
  decision (Prisma.checkUserPermissions db (Some actor) DELETE (id target))
  = Some match role actor with
         | admin =>
             if id actor =? id target
             then DENY "admins cannot delete their own account"
             else ALLOW
         | moderator =>
             if Role_eqb (role target) user
             then ALLOW
             else DENY "moderators can only delete basic users"
         | user =>
             if id actor =? id target
             then DENY "basic users cannot delete accounts"
             else DENY "access denied"
         end.
Proof.
  intros Hfind. unfold Prisma.checkUserPermissions.
  destruct (role actor); simpl.
  - destruct (id actor =? id target); reflexivity.
  - rewrite Hfind. destruct (role target); reflexivity.
  - destruct (id actor =? id target); reflexivity.
Qed.

Lemma delete_decision_table_witness :
  findUnique directory (id carol) = Some carol /\
  decision (Prisma.checkUserPermissions directory (Some mona) DELETE
              (id carol)) = Some ALLOW.
Proof.
  split; [reflexivity|].
  exact (delete_decision_table directory mona carol eq_refl).
Defined.

(** C4 (as stated, refuted). Bob, a basic user, deleting Carol is denied
    with "access denied", not with "basic users cannot delete
    accounts". *)
Lemma delete_by_user_reason_differs :
  findUnique directory (id carol) = Some carol /\
  decision (Prisma.checkUserPermissions directory (Some bob) DELETE
              (id carol)) = Some (DENY "access denied") /\
  decision (Prisma.checkUserPermissions directory (Some bob) DELETE
              (id carol)) <> Some (spec_decide_DELETE bob carol).
Proof.
  split; [reflexivity|]. split; [reflexivity|].
  vm_compute. discriminate.
Qed.

(** *** Reading one user *)

(** C8. VIEW_ONE on a stored target: an admin or a moderator gets the
    record whatever the target; a user gets it exactly when the target
    is itself and is otherwise answered 403 "Access denied", that is
    DENY("access denied"). *)
Theorem view_one_decision (db : Users) (actor target : User) :
  findUnique db (id target) = Some target ->
  Prisma.get_user_handler db (Some actor) (id target)
  = match role actor with
    | admin | moderator => json 200 (OneUser (select_public target))
    | user =>
        if id target =? id actor
        then json 200 (OneUser (select_public target))
        else json 403 (Message "Access denied")
    end /\
  verdict (Prisma.get_user_handler db (Some actor) (id target))
  = Some match role actor with
         | admin | moderator => ALLOW
         | user =>
             if id target =? id actor then ALLOW
             else DENY "access denied"
         end.
Proof.
  intros Hfind. unfold Prisma.get_user_handler. rewrite Hfind.
  rewrite (Z.eqb_sym (id target) (id actor)).
  destruct (role actor); simpl; try (split; reflexivity).
  destruct (id actor =? id target); split; reflexivity.
Qed.

Lemma view_one_decision_witness :
  findUnique directory (id alice) = Some alice /\
  verdict (Prisma.get_user_handler directory (Some bob) (id alice))
  = Some (DENY "access denied").
Proof.
  split; [reflexivity|].
  exact (proj2 (view_one_decision directory bob alice eq_refl)).
Defined.

(** C10 (amended). In [GET /users/:id] the existence check comes
    first.  For every authenticated actor an id of the column's range
    with no account is answered 404 "User not found"; for an actor of
    role user an id with an account, other than its own, is answered 403
    "Access denied".  So the status tells such an actor whether the
    account exists.  Holds for the Prisma route and, with the id written
    as a decimal numeral in the path, for the SQL route. *)
Theorem existence_check_precedes_permission
    (db : Users) (token : Token) (actor : User) (missing present : Z) :
  Prisma.authenticate db token = Continue actor ->
  int4 missing = true ->
  int4 present = true ->
  findUnique db missing = None ->
  findUnique db present <> None ->
  (Prisma.GET_users_id db token missing
     = json 404 (Message "User not found") /\
   Sql.GET_users_id db (Verified (mkJwt (id actor) (role actor)))
     (decimal missing)
     = json 404 (Message "User not found")) /\
  (role actor = user -> id actor <> present ->
   Prisma.GET_users_id db token present
     = json 403 (Message "Access denied") /\
   Sql.GET_users_id db (Verified (mkJwt (id actor) (role actor)))
     (decimal present)
     = json 403 (Message "Access denied") /\
   status (Prisma.GET_users_id db token missing)
     <> status (Prisma.GET_users_id db token present)).
Proof.
  intros Hauth Hm Hp Hnone Hsome.
  assert (P1 : Prisma.GET_users_id db token missing
               = json 404 (Message "User not found")).
  { unfold Prisma.GET_users_id, Prisma.get_user_handler.
    rewrite Hauth, Hm, Hnone. reflexivity. }
  split; [split; [exact P1|] |].
  - unfold Sql.GET_users_id, Sql.get_user_handler, decimal. rewrite Hm.
    simpl.
    pose proof (select_by_id_find db missing) as H. rewrite Hnone in H.
    destruct (Sql.select_by_id db missing); [reflexivity|discriminate].
  - intros Hrole Hk.
    assert (Ep : (id actor =? present) = false) by now apply Z.eqb_neq.
    assert (P2 : Prisma.GET_users_id db token present
                 = json 403 (Message "Access denied")).
    { unfold Prisma.GET_users_id, Prisma.get_user_handler.
      rewrite Hauth, Hp.
      destruct (findUnique db present); [|congruence].
      rewrite Hrole, Ep. reflexivity. }
    split; [exact P2|]. split.
    + unfold Sql.GET_users_id, Sql.get_user_handler, decimal. rewrite Hp.
      simpl.
      pose proof (select_by_id_find db present) as H.
      destruct (Sql.select_by_id db present) as [|u l].
      * simpl in H. congruence.
      * rewrite Hrole, Ep. reflexivity.
    + rewrite P1, P2. simpl. lia.
Qed.

Lemma existence_check_precedes_permission_witness :
  Prisma.GET_users_id directory (Verified (mkJwt 2 user)) 99
    = json 404 (Message "User not found") /\
  Prisma.GET_users_id directory (Verified (mkJwt 2 user)) 1
    = json 403 (Message "Access denied").
Proof.
  assert (H : findUnique directory 1 <> None) by (vm_compute; discriminate).
  pose proof (existence_check_precedes_permission directory
                (Verified (mkJwt 2 user)) bob 99 1 eq_refl eq_refl eq_refl
                eq_refl H) as W.
  split; [exact (proj1 (proj1 W))|].
  refine (proj1 (proj2 W eq_refl _)). vm_compute. discriminate.
Defined.

(** C10 (as stated, refuted). No account has the id 2147483648, one
    past the largest value of the column; Bob's request for it is
    answered 500 "Error fetching user", not 404, in both revisions. *)
Lemma id_out_of_range_is_an_error :
  findUnique directory 2147483648 = None /\
  Prisma.GET_users_id directory (Verified (mkJwt 2 user)) 2147483648
    = json 500 (Message "Error fetching user") /\
  Sql.GET_users_id directory (Verified (mkJwt 2 user))
    (decimal 2147483648)
    = json 500 (Message "Error fetching user") /\
  status (Prisma.GET_users_id directory (Verified (mkJwt 2 user))
            2147483648) <> 404.
Proof. repeat split; try reflexivity. vm_compute. discriminate. Qed.

(** *** Login *)

Section LoginFailures.

Variable bcrypt_compare : string -> string -> bool.
Variable db : Users.



End LoginFailures.

(** C9 (defect). A login that carries no password tells whether the
    email has an account.  Both branches of the route answer a failed
    login with the same 401 "Invalid credentials"; but without a
    password [bcrypt.compare] throws, which happens only after the
    account has been found, and the [catch] block answers 500 "Error
    during login".  For Bob's email, which has an account, the answer is
    500; for an email without account it is 401.  Whatever
    [bcrypt.compare] is, in both revisions. *)
Theorem login_without_password_reveals_account
    (bcrypt_compare : string -> string -> bool) :
  findUniqueByEmail directory "bob@example.com" = Some bob /\
  findUniqueByEmail directory "nobody@example.com" = None /\
  Prisma.login bcrypt_compare directory
    (mkLogin (Some "bob@example.com"%string) None)
    = json 500 (Message "Error during login") /\
  Prisma.login bcrypt_compare directory
    (mkLogin (Some "nobody@example.com"%string) None)
    = json 401 (Message "Invalid credentials") /\
  Sql.login bcrypt_compare directory
    (mkLogin (Some "bob@example.com"%string) None)
    = json 500 (Message "Error during login") /\
  Sql.login bcrypt_compare directory
    (mkLogin (Some "nobody@example.com"%string) None)
    = json 401 (Message "Invalid credentials").
Proof. repeat split; reflexivity. Qed.

(** *** Updating a user *)

Lemma authenticate_reply_status (db : Users) (token : Token)
    (r : Response) :
  Prisma.authenticate db token = Reply r -> status r = 401.
Proof.
  unfold Prisma.authenticate.
  destruct token as [| |d]; try (intros H; injection H as <-; reflexivity).
  destruct (findUnique db (userId d)); [discriminate|].
  intros H; injection H as <-; reflexivity.
Qed.

Lemma permission_reply_status (db : Users) (u : option User) (m : Method)
    (k : Z) (r : Response) :
  Prisma.checkUserPermissions db u m k = Reply r -> status r <> 200.
Proof.
  unfold Prisma.checkUserPermissions.
  destruct u as [u|]; [|intros H; injection H as <-; discriminate].
  destruct (role u); simpl;
    repeat match goal with
           | |- context [if ?c then _ else _] => destruct c
           | |- context [match findUnique ?d ?x with _ => _ end] =>
               destruct (findUnique d x)
           end; simpl;
    intros H; try discriminate; injection H as <-; discriminate.
Qed.

Lemma user_update_shape (db db' : Users) (k : Z) (upd : Updates) (now : Z)
    (u' : User) :
  Prisma.user_update db k upd now = Some (db', u') ->
  db' = map (fun r => if id r =? k then apply_updates now upd r else r) db
  /\ fits_columns upd = true /\ email_free db k upd = true.
Proof.
  unfold Prisma.user_update.
  destruct (findUnique db k); [|discriminate].
  destruct (fits_columns upd) eqn:E1; [|discriminate].
  destruct (email_free db k upd) eqn:E2; [|discriminate].
  simpl. intros H; injection H as <- _. auto.
Qed.

(** Either the update is refused and the table is the old one, or the
    answer is 200 and the table is the result of one [user_update]. *)
Lemma put_outcome (bcrypt_hash : string -> string -> string) (db : Users)
    (token : Token) (k : Z) (body : UpdateBody) (now : Z) (salt : string) :
  (status (fst (Prisma.PUT_users_id bcrypt_hash db token k body now salt))
     <> 200 /\
   snd (Prisma.PUT_users_id bcrypt_hash db token k body now salt) = db)
  \/
  (status (fst (Prisma.PUT_users_id bcrypt_hash db token k body now salt))
     = 200 /\
   exists upd u',
     Prisma.user_update db k upd now
     = Some (snd (Prisma.PUT_users_id bcrypt_hash db token k body now salt),
             u')).
Proof.
  unfold Prisma.PUT_users_id.
  destruct (Prisma.authenticate db token) as [actor|r] eqn:Hauth.
  2:{ left. simpl. rewrite (authenticate_reply_status _ _ _ Hauth).
      split; [lia | reflexivity]. }
  destruct (Prisma.checkUserPermissions db (Some actor) PUT k)
    as [[]|r] eqn:Hperm.
  2:{ left. simpl. split; [|reflexivity].
      exact (permission_reply_status _ _ _ _ _ Hperm). }
  unfold Prisma.put_user_handler.
  destruct (findUnique db k); [|left; simpl; split; [lia|reflexivity]].
  destruct (Js.truthy (b_email body) && _);
    [left; simpl; split; [lia|reflexivity]|].
  destruct (Js.truthy (b_password body) && _);
    [left; simpl; split; [lia|reflexivity]|].
  match goal with
  | |- context [Prisma.user_update db k ?u now] =>
      destruct (Prisma.user_update db k u now) as [[db' u']|] eqn:Hupd
  end.
  - right. simpl. split; [reflexivity|]. eauto.
  - left. simpl. split; [lia|reflexivity].
Qed.

Lemma findUnique_map_other (db : Users) (k j : Z) (f : User -> User) :
  (forall u, id (f u) = id u) -> j <> k ->
  findUnique (map (fun r => if id r =? k then f r else r) db) j
  = findUnique db j.
Proof.
  intros Hid Hjk. unfold findUnique.
  induction db as [|u db IH]; simpl; [reflexivity|].
  destruct (id u =? k) eqn:Ek.
  - rewrite Hid. apply Z.eqb_eq in Ek.
    destruct (id u =? j) eqn:Ej; [apply Z.eqb_eq in Ej; congruence|].
    exact IH.
  - destruct (id u =? j); [reflexivity | exact IH].
Qed.

Lemma findUnique_map_self (db : Users) (k : Z) (f : User -> User) :
  (forall u, id (f u) = id u) ->
  findUnique (map (fun r => if id r =? k then f r else r) db) k
  = option_map f (findUnique db k).
Proof.
  intros Hid. unfold findUnique.
  induction db as [|u db IH]; simpl; [reflexivity|].
  destruct (id u =? k) eqn:Ek.
  - rewrite Hid, Ek. reflexivity.
  - rewrite Ek. exact IH.
Qed.

Lemma apply_updates_keeps_role (now : Z) (upd : Updates) (u : User) :
  u_role upd = None ->
  (id (apply_updates now upd u), role (apply_updates now upd u))
  = (id u, role u).
Proof. intros H. unfold apply_updates. simpl. now rewrite H. Qed.

Lemma user_update_keeps_roles (db db' : Users) (k : Z) (upd : Updates)
    (now : Z) (u' : User) :
  Prisma.user_update db k upd now = Some (db', u') ->
  u_role upd = None ->
  roles_of db' = roles_of db.
Proof.
  unfold Prisma.user_update, roles_of. intros H Hrole.
  destruct (findUnique db k); [|discriminate].
  destruct (fits_columns upd && email_free db k upd); [|discriminate].
  injection H as <- _. rewrite map_map. apply map_ext. intros r.
  destruct (id r =? k); [|reflexivity].
  now apply apply_updates_keeps_role.
Qed.

(** The handler leaves every role as it is when the guard on the role
    field is closed. *)
Lemma put_handler_keeps_roles
    (bcrypt_hash : string -> string -> string) (db : Users)
    (req_user : option User) (k : Z) (body : UpdateBody) (now : Z)
    (salt : string) :
  (forall existing, findUnique db k = Some existing ->
                    Prisma.may_set_role req_user existing = false) ->
  roles_of (snd (Prisma.put_user_handler bcrypt_hash db req_user k body
                   now salt)) = roles_of db.
Proof.
  intros Hguard. unfold Prisma.put_user_handler.
  destruct (findUnique db k) as [existing|] eqn:Hfind; [|reflexivity].
  rewrite (Hguard existing eq_refl).
  destruct (Js.truthy (b_email body) && _); [reflexivity|].
  destruct (Js.truthy (b_password body) && _); [reflexivity|].
  match goal with
  | |- context [Prisma.user_update db k ?u now] =>
      destruct (Prisma.user_update db k u now) as [[db' upd']|] eqn:Hupd
  end; [|reflexivity].
  simpl. eapply user_update_keeps_roles; [exact Hupd|].
  simpl. now destruct (b_role body).
Qed.

(** A caller that is not an admin and reaches the handler is editing its
    own row, and the guard on the role field is closed for it. *)
Lemma own_row_guard_closed (db : Users) (token : Token) (actor : User)
    (k : Z) :
  Prisma.authenticate db token = Continue actor ->
  role actor <> admin ->
  Prisma.checkUserPermissions db (Some actor) PUT k = Continue tt ->
  id actor = k /\
  forall existing, findUnique db k = Some existing ->
                   Prisma.may_set_role (Some actor) existing = false.
Proof.
  intros Hauth Hrole Hperm.
  assert (Hself : findUnique db (id actor) = Some actor).
  { unfold Prisma.authenticate in Hauth.
    destruct token as [| |decoded]; try discriminate.
    destruct (findUnique db (userId decoded)) as [u|] eqn:E;
      [|discriminate].
    injection Hauth as ->. now rewrite (findUnique_id _ _ _ E). }
  assert (Hk : id actor = k).
  { unfold Prisma.checkUserPermissions in Hperm.
    destruct (role actor); simpl in Hperm; try congruence;
      destruct (id actor =? k) eqn:E; simpl in Hperm;
      try discriminate; now apply Z.eqb_eq. }
  split; [exact Hk|].
  intros existing Hex. rewrite <- Hk, Hself in Hex. injection Hex as <-.
  unfold Prisma.may_set_role. destruct (role actor); simpl; congruence.
Qed.

Lemma non_admin_other_target_denied (db : Users) (actor : User) (k : Z) :
  role actor <> admin -> id actor <> k ->
  Prisma.checkUserPermissions db (Some actor) PUT k
  = Reply (json 403 (Message "Access denied")).
Proof.
  intros Hrole Hk. apply Z.eqb_neq in Hk.
  unfold Prisma.checkUserPermissions.
  destruct (role actor); simpl; try congruence; now rewrite Hk.
Qed.

Lemma authenticated_is_stored (db : Users) (token : Token) (actor : User) :
  Prisma.authenticate db token = Continue actor ->
  findUnique db (id actor) = Some actor.
Proof.
  unfold Prisma.authenticate. intros Hauth.
  destruct token as [| |decoded]; try discriminate.
  destruct (findUnique db (userId decoded)) as [u|] eqn:E; [|discriminate].
  injection Hauth as ->. now rewrite (findUnique_id _ _ _ E).
Qed.

Lemma own_account_passes (db : Users) (actor : User) (k : Z) :
  role actor <> admin -> id actor = k ->
  Prisma.checkUserPermissions db (Some actor) PUT k = Continue tt.
Proof.
  intros Hrole Hk. apply Z.eqb_eq in Hk.
  unfold Prisma.checkUserPermissions.
  destruct (role actor); simpl; try congruence; now rewrite Hk.
Qed.


Lemma guard_closed_on_own_account (actor : User) :
  role actor <> admin -> Prisma.may_set_role (Some actor) actor = false.
Proof.
  intros H. unfold Prisma.may_set_role.
  destruct (role actor); simpl; congruence.
Qed.

Lemma stored_field_or_else (sent : option string) (old : string) :
  or_else (if Js.truthy sent then sent else None) old
  = stored_field sent old.
Proof.
  unfold stored_field. destruct sent as [v|]; simpl; [|reflexivity].
  destruct (negb (String.eqb v EmptyString)); reflexivity.
Qed.

Lemma updates_empty_writes (first last em pw : option string)
    (r : option Role) (hashed : string) :
  updates_empty
    (mkUpdates (if Js.truthy first then first else None)
               (if Js.truthy last then last else None)
               (if Js.truthy em then em else None)
               r
               (if Js.truthy pw then Some hashed else None))
  = negb (writes_something first last em pw
            match r with Some _ => true | None => false end).
Proof.
  unfold updates_empty, writes_something.
  destruct first as [[|c1 s1]|], last as [[|c2 s2]|], em as [[|c3 s3]|],
    pw as [[|c4 s4]|], r; reflexivity.
Qed.

Lemma apply_no_updates (now : Z) (u : User) :
  apply_updates now (mkUpdates None None None None None) u = u.
Proof. now destruct u. Qed.

(** A body with a new first name and the own email fits an empty table. *)
Example fields_fit_example :
  fields_fit [] 2 (Some "Robert"%string) None
    (Some "bob@example.com"%string).
Proof.
  unfold fields_fit, storable. split; [|split].
  - intros f H. injection H as <-. split; [reflexivity|simpl; lia].
  - intros l H. discriminate.
  - intros e H _. injection H as <-.
    split; [reflexivity|]. split; [reflexivity|].
    split; [simpl; lia|]. intros r [].
Qed.



(** What a 200 answer of [PUT /users/:id] has stored. *)
Lemma put_success_stores (bcrypt_hash : string -> string -> string)
    (db : Users) (token : Token) (target : User) (k : Z)
    (body : UpdateBody) (now : Z) (salt : string) :
  findUnique db k = Some target ->
  status (fst (Prisma.PUT_users_id bcrypt_hash db token k body now salt))
    = 200 ->
  exists actor updated,
    Prisma.authenticate db token = Continue actor /\
    findUnique
      (snd (Prisma.PUT_users_id bcrypt_hash db token k body now salt)) k
    = Some updated /\
    fields_applied (fun p => bcrypt_hash p salt) (b_first_name body)
      (b_last_name body) (b_email body) (b_password body) target updated /\
    role updated
    = match b_role body with
      | Some r =>
          if Prisma.may_set_role (Some actor) target then r
          else role target
      | None => role target
      end /\
    (let role_set :=
       match b_role body with
       | Some _ => Prisma.may_set_role (Some actor) target
       | None => false
       end in
     let writes :=
       writes_something (b_first_name body) (b_last_name body)
         (b_email body) (b_password body) role_set in
     updated_at updated = (if writes then now else updated_at target) /\
     (writes = false -> updated = target)).
Proof.
  intros Hfind. unfold Prisma.PUT_users_id.
  destruct (Prisma.authenticate db token) as [actor|r] eqn:Hauth.
  2:{ simpl. rewrite (authenticate_reply_status _ _ _ Hauth). lia. }
  destruct (Prisma.checkUserPermissions db (Some actor) PUT k)
    as [[]|r] eqn:Hperm.
  2:{ simpl. intros Hs.
      now apply (permission_reply_status _ _ _ _ _ Hperm) in Hs. }
  unfold Prisma.put_user_handler. rewrite Hfind.
  destruct (Js.truthy (b_email body) && _); [simpl; lia|].
  destruct (Js.truthy (b_password body) && _); [simpl; lia|].
  match goal with
  | |- context [Prisma.user_update db k ?u now] =>
      destruct (Prisma.user_update db k u now) as [[db' u']|] eqn:Hupd
  end; [|simpl; lia].
  intros _. cbn [fst snd]. apply user_update_shape in Hupd.
  destruct Hupd as (-> & _ & _).
  rewrite findUnique_map_self by reflexivity. rewrite Hfind.
  cbn [option_map].
  exists actor. eexists. split; [reflexivity|]. split; [reflexivity|].
  split; [|split].
  - unfold fields_applied, apply_updates.
    cbn [first_name last_name email password u_first_name u_last_name
         u_email u_password].
    rewrite !stored_field_or_else. repeat split.
    destruct (Js.truthy (b_password body)); reflexivity.
  - unfold apply_updates. cbn [role u_role].
    destruct (b_role body);
      [destruct (Prisma.may_set_role (Some actor) target)|]; reflexivity.
  - cbv zeta.
    assert (E : forall r hashed,
      updates_empty
        (mkUpdates
           (if Js.truthy (b_first_name body) then b_first_name body
            else None)
           (if Js.truthy (b_last_name body) then b_last_name body
            else None)
           (if Js.truthy (b_email body) then b_email body else None)
           r
           (if Js.truthy (b_password body) then Some hashed else None))
      = negb (writes_something (b_first_name body) (b_last_name body)
                (b_email body) (b_password body)
                match r with Some _ => true | None => false end))
      by (intros; apply updates_empty_writes).
    destruct (b_role body) as [r|];
      [destruct (Prisma.may_set_role (Some actor) target)|];
      unfold apply_updates at 1; cbn [updated_at]; rewrite E;
      (split; [now destruct (writes_something _ _ _ _ _)|]);
      intros Hw;
      match goal with
      | |- apply_updates now ?u target = target =>
          assert (Hu : updates_empty u = true)
            by (rewrite E, Hw; reflexivity)
      end;
      unfold updates_empty in Hu; cbn in Hu;
      repeat match type of Hu with
             | context [if ?c then _ else _] => destruct c
             end;
      try discriminate; apply apply_no_updates.
Qed.

Section NonAdminUpdate.

Variable bcrypt_hash : string -> string -> string.
Variables (db : Users) (token : Token) (actor : User).
Variables (k : Z) (body : UpdateBody) (now : Z) (salt : string).

Hypothesis Hauth : Prisma.authenticate db token = Continue actor.
Hypothesis Hrole : role actor <> admin.

Lemma put_keeps_roles :
  roles_of (snd (Prisma.PUT_users_id bcrypt_hash db token k body now salt))
  = roles_of db.
Proof.
  unfold Prisma.PUT_users_id. rewrite Hauth.
  destruct (Prisma.checkUserPermissions db (Some actor) PUT k)
    as [[]|r] eqn:Hperm; [|reflexivity].
  apply put_handler_keeps_roles.
  now apply (own_row_guard_closed db token actor k).
Qed.

Lemma put_other_account_denied :
  id actor <> k ->
  Prisma.PUT_users_id bcrypt_hash db token k body now salt
  = (json 403 (Message "Access denied"), db).
Proof.
  intros Hk. unfold Prisma.PUT_users_id.
  now rewrite Hauth, non_admin_other_target_denied.
Qed.

Lemma put_own_account_not_refused :
  id actor = k ->
  status (fst (Prisma.PUT_users_id bcrypt_hash db token k body now salt))
  <> 403.
Proof.
  intros Hk. unfold Prisma.PUT_users_id. rewrite Hauth.
  rewrite (own_account_passes db actor k Hrole Hk).
  unfold Prisma.put_user_handler.
  destruct (findUnique db k); [|simpl; lia].
  destruct (Js.truthy (b_email body) && _); [simpl; lia|].
  destruct (Js.truthy (b_password body) && _); [simpl; lia|].
  match goal with
  | |- context [Prisma.user_update db k ?u now] =>
      destruct (Prisma.user_update db k u now) as [[db' upd']|]
  end; simpl; lia.
Qed.

(** With the guard closed the role field has no effect. *)
Lemma put_role_field_ignored (target : User) :
  findUnique db k = Some target ->
  Prisma.may_set_role (Some actor) target = false ->
  Prisma.PUT_users_id bcrypt_hash db token k body now salt
  = Prisma.PUT_users_id bcrypt_hash db token k (without_role body) now
      salt.
Proof.
  intros Hfind Hguard. unfold Prisma.PUT_users_id. rewrite Hauth.
  destruct (Prisma.checkUserPermissions db (Some actor) PUT k);
    [|reflexivity].
  unfold Prisma.put_user_handler. rewrite Hfind, Hguard. simpl.
  destruct (b_role body); reflexivity.
Qed.

(** On its own account the caller's update, when answered 200, has
    stored the fields sent and kept the role. *)
Lemma put_own_account_stores (target : User) :
  findUnique db k = Some target ->
  id actor = k ->
  status (fst (Prisma.PUT_users_id bcrypt_hash db token k body now salt))
    = 200 ->
  exists updated,
    findUnique
      (snd (Prisma.PUT_users_id bcrypt_hash db token k body now salt)) k
    = Some updated /\
    role updated = role target /\
    fields_applied (fun p => bcrypt_hash p salt) (b_first_name body)
      (b_last_name body) (b_email body) (b_password body) target updated.
Proof.
  intros Hfind Hk Hs.
  destruct (put_success_stores bcrypt_hash db token target k body now salt
              Hfind Hs) as (actor' & updated & Ha & Hu & Hf & Hr & _).
  rewrite Hauth in Ha. injection Ha as <-.
  exists updated. split; [exact Hu|]. split; [|exact Hf].
  rewrite Hr.
  pose proof (authenticated_is_stored db token actor Hauth) as Hself.
  rewrite Hk, Hfind in Hself. injection Hself as ->.
  rewrite (guard_closed_on_own_account actor Hrole).
  now destruct (b_role body).
Qed.


End NonAdminUpdate.

(** *** The same in the SQL revision *)

Lemma sql_permission_reply_status (u : option Sql.ReqUser) (m : Method)
    (k : Z) (r : Response) :
  Sql.checkUserPermissions u m k = Reply r -> status r <> 200.
Proof.
  unfold Sql.checkUserPermissions.
  destruct u as [u|]; [|intros H; injection H as <-; discriminate].
  destruct (Sql.ru_role u); simpl;
    repeat match goal with
           | |- context [if ?c then _ else _] => destruct c
           end; simpl;
    intros H; try discriminate; injection H as <-; discriminate.
Qed.

Section SqlNonAdminUpdate.

Variable bcrypt_hash : string -> string -> string.
Variables (db : Users) (caller : Sql.ReqUser) (target : User).
Variables (k : Z) (body : Sql.SqlBody) (now : Z) (salt : string).

Hypothesis Hfind : findUnique db k = Some target.
Hypothesis Hrole : Sql.ru_role caller <> admin.





Hypothesis Hguard : Sql.may_set_role (Some caller) target = false.




End SqlNonAdminUpdate.

(** C1 (amended). An UPDATE that asks for the role moderator or admin,
    made by a caller that is not an admin, changes no stored role: in
    particular a moderator cannot make a basic user an admin.  It is
    answered 403 "Access denied", the table untouched, when the caller
    is a user and the target another account, and when the caller is a
    moderator and the target another account whose role is not user.
    When the target is the caller's own account the request is not
    refused: the role field is ignored, the answer is that of the same
    request without it, and a 200 answer has stored the other fields
    sent and kept the role. *)
Theorem non_admin_update_keeps_roles
    (bcrypt_hash : string -> string -> string) (db : Users)
    (token : Token) (actor target : User) (k : Z) (body : UpdateBody)
    (requested : Role) (now : Z) (salt : string) :
  Prisma.authenticate db token = Continue actor ->
  role actor <> admin ->
  findUnique db k = Some target ->
  b_role body = Some requested ->
  requested <> user ->
  let answer := Prisma.PUT_users_id bcrypt_hash db token k body now salt in
  roles_of (snd answer) = roles_of db /\
  (id actor <> k -> role actor = user \/ role target <> user ->
   answer = (json 403 (Message "Access denied"), db)) /\
  (id actor = k ->
   status (fst answer) <> 403 /\
   answer
   = Prisma.PUT_users_id bcrypt_hash db token k (without_role body) now
       salt /\
   (status (fst answer) = 200 ->
    exists updated,
      findUnique (snd answer) k = Some updated /\
      role updated = role target /\
      fields_applied (fun p => bcrypt_hash p salt) (b_first_name body)
        (b_last_name body) (b_email body) (b_password body)
        target updated)).
Proof.
  intros Hauth Hrole Hfind Hbody Hreq answer. subst answer.
  split; [|split].
  - now apply put_keeps_roles with (actor := actor).
  - intros Hk _. now apply put_other_account_denied with (actor := actor).
  - intros Hk. split; [|split].
    + now apply put_own_account_not_refused with (actor := actor).
    + apply put_role_field_ignored with (actor := actor) (target := target);
        try assumption.
      pose proof (authenticated_is_stored db token actor Hauth) as Hself.
      rewrite Hk, Hfind in Hself. injection Hself as ->.
      now apply guard_closed_on_own_account.
    + now apply put_own_account_stores with (actor := actor).
Qed.

Lemma non_admin_update_keeps_roles_witness :
  Prisma.PUT_users_id toy_hash directory (Verified (mkJwt 3 moderator)) 1
    (mkBody None None None (Some admin) None) 9000 "$2a$10$"
  = (json 403 (Message "Access denied"), directory).
Proof.
  refine (proj1 (proj2
    (non_admin_update_keeps_roles toy_hash directory
       (Verified (mkJwt 3 moderator)) mona alice 1
       (mkBody None None None (Some admin) None) admin 9000 "$2a$10$"
       eq_refl _ eq_refl eq_refl _)) _ _).
  - discriminate.
  - discriminate.
  - vm_compute. discriminate.
  - right. discriminate.
Defined.

(** C1 (as stated, refuted). Bob, a basic user, asks for the role admin
    on his own account: the answer is 200 "User updated successfully"
    with his record as it was, not a denial; his stored role stays
    user. *)
Lemma own_role_request_is_not_denied :
  let request :=
    Prisma.PUT_users_id toy_hash directory (Verified (mkJwt 2 user)) 2
      (mkBody None None None (Some admin) None) 9000 "$2a$10$" in
  role bob = user /\
  fst request
  = json 200 (MessageUser "User updated successfully"
                (mkPublicUser 2 "Bob" "Reed" "bob@example.com" user
                   2000 2000)) /\
  verdict (fst request) = Some ALLOW /\
  verdict (fst request) <> Some (DENY "access denied") /\
  option_map role (findUnique (snd request) 2) = Some user.
Proof.
  repeat split; try reflexivity. vm_compute. discriminate.
Qed.




(** *** The edit diff *)

Lemma strict_eq_refl (a : JsVal) : Audit.strict_eq a a = true.
Proof.
  destruct a; simpl; try reflexivity.
  - apply Bool.eqb_reflx.
  - apply Z.eqb_refl.
  - apply String.eqb_refl.
  - apply Nat.eqb_refl.
  - apply Nat.eqb_refl.
Qed.

(** Against a primitive value [===] is equality of values. *)
Lemma strict_eq_primitive (a b : JsVal) :
  primitive b = true -> (Audit.strict_eq a b = true <-> a = b).
Proof.
  intros Hb. split; [|intros ->; apply strict_eq_refl].
  destruct a, b; simpl; intros H; try discriminate; try reflexivity.
  - f_equal. now apply Bool.eqb_prop.
  - f_equal. now apply Z.eqb_eq.
  - f_equal. now apply String.eqb_eq.
Qed.

(** The changes collected are the keys visited whose two values are not
    [===]. *)
Lemma collect_changes_In (oldData newData : Audit.JsObject)
    (keys : list string) (c : Change) :
  In c (Audit.collect_changes oldData newData keys) <->
  In (field c) keys /\
  oldValue c = Audit.get oldData (field c) /\
  newValue c = Audit.get newData (field c) /\
  Audit.strict_eq (oldValue c) (newValue c) = false.
Proof.
  induction keys as [|key rest IH]; simpl.
  - tauto.
  - destruct (Audit.strict_eq (Audit.get oldData key)
                (Audit.get newData key)) eqn:E; simpl.
    + rewrite IH. split.
      * intros (Hin & Ho & Hn & Hd). tauto.
      * intros ([Hk | Hin] & Ho & Hn & Hd); [|tauto].
        subst key. congruence.
    + rewrite IH. split.
      * intros [Hc | (Hin & Ho & Hn & Hd)]; [|tauto].
        subst c. simpl. tauto.
      * intros ([Hk | Hin] & Ho & Hn & Hd); [|tauto].
        left. destruct c as [f o n]. simpl in *. congruence.
Qed.

Lemma collect_changes_none (oldData newData : Audit.JsObject)
    (keys : list string) :
  (forall key, In key keys ->
     Audit.strict_eq (Audit.get oldData key) (Audit.get newData key)
     = true) ->
  Audit.collect_changes oldData newData keys = [].
Proof.
  induction keys as [|key rest IH]; simpl; intros H; [reflexivity|].
  rewrite (H key (or_introl eq_refl)). simpl. apply IH.
  intros key' Hin. apply H. now right.
Qed.

(** C5 (amended). For images whose post-image holds primitive values
    (strings, numbers, booleans, null), [logUserEdit] records a change
    (field, old value, new value) exactly for the fields of the
    post-image whose value differs from the pre-image; a field that only
    the pre-image has is not compared.  When every field of the
    post-image has the value the pre-image has, the change set is empty
    and no audit entry is written: the store is returned as it was. *)
Theorem edit_diff_over_new_fields
    (users : Users) (st : Audit.AuditStore) (now actorId targetId : Z)
    (oldData newData : Audit.JsObject) (ip : option string) :
  (forall key, In key (Audit.Object_keys newData) ->
     primitive (Audit.get newData key) = true) ->
  (forall c : Change,
     In c (Audit.edit_changes oldData newData) <->
     In (field c) (Audit.Object_keys newData) /\
     oldValue c = Audit.get oldData (field c) /\
     newValue c = Audit.get newData (field c) /\
     oldValue c <> newValue c) /\
  ((forall key, In key (Audit.Object_keys newData) ->
      Audit.get oldData key = Audit.get newData key) ->
   Audit.edit_changes oldData newData = [] /\
   Audit.logUserEdit users st now actorId targetId oldData newData ip
   = Some (st, None)).
Proof.
  intros Hprim. split.
  - intros c. unfold Audit.edit_changes. rewrite collect_changes_In.
    split.
    + intros (Hin & Ho & Hn & Hd). repeat split; try assumption.
      intros Heq. rewrite Heq, strict_eq_refl in Hd. discriminate.
    + intros (Hin & Ho & Hn & Hd). repeat split; try assumption.
      destruct (Audit.strict_eq (oldValue c) (newValue c)) eqn:E;
        [|reflexivity].
      apply strict_eq_primitive in E; [contradiction|].
      rewrite Hn. now apply Hprim.
  - intros Hsame.
    assert (E : Audit.edit_changes oldData newData = []).
    { apply collect_changes_none. intros key Hin.
      rewrite (Hsame key Hin). apply strict_eq_refl. }
    split; [exact E|].
    unfold Audit.logUserEdit. now rewrite E.
Qed.

Lemma edit_diff_over_new_fields_witness :
  In (mkChange "first_name" (JStr "Bob") (JStr "Robert"))
     (Audit.edit_changes bob_before bob_renamed).
Proof.
  refine (proj2 (proj1
    (edit_diff_over_new_fields directory empty_store 9000 1 2 bob_before
       bob_renamed None _) _) _).
  - intros key Hin. simpl in Hin.
    repeat (destruct Hin as [<- | Hin]; [reflexivity|]). contradiction.
  - repeat split; try reflexivity.
    + simpl. tauto.
    + discriminate.
Defined.

(** One edit is recorded with its old and new value. *)
Example edit_diff_first_name :
  Audit.edit_changes bob_before bob_renamed
  = [mkChange "first_name" (JStr "Bob") (JStr "Robert")].
Proof. reflexivity. Qed.

(** Objects are outside the property above: they are compared by
    reference, so two [Date] objects are reported as a change even when
    they hold the same instant, and the entry is written. *)
Example distinct_date_objects_are_reported :
  Audit.edit_changes [("updated_at"%string, JDate 1 2000)]
                     [("updated_at"%string, JDate 2 2000)]
  = [mkChange "updated_at" (JDate 1 2000) (JDate 2 2000)] /\
  option_map snd
    (Audit.logUserEdit directory empty_store 9000 1 2
       [("updated_at"%string, JDate 1 2000)]
       [("updated_at"%string, JDate 2 2000)] None)
  = Some (Some (mkAuditLog 1 1 Audit.EDIT_USER (Some 2)
                  (MChanges [mkChange "updated_at" (JDate 1 2000)
                                      (JDate 2 2000)])
                  None 9000)).
Proof. split; reflexivity. Qed.

(** C5 (as stated, refuted). The pre-image holds a password, the
    post-image does not: the field differs between the images, yet the
    change set is empty and nothing is written. *)
Lemma dropped_field_is_not_reported :
  spec_field_differs bob_before bob_after "password" /\
  Audit.edit_changes bob_before bob_after = [] /\
  Audit.logUserEdit directory empty_store 9000 1 2 bob_before bob_after
    None = Some (empty_store, None).
Proof.
  split; [|split]; try reflexivity.
  unfold spec_field_differs. vm_compute. discriminate.
Qed.

(** *** The audit-log query *)

Section OrderedRows.

Variable tie : Audit.TieOrder.

Lemma insert_desc_perm (x : AuditLog) (l : list AuditLog) :
  Permutation (x :: l) (Audit.insert_desc tie x l).
Proof.
  induction l as [|y r IH]; simpl; [apply Permutation_refl|].
  destruct ((log_created_at y <? log_created_at x) || _).
  - apply Permutation_refl.
  - eapply perm_trans; [apply perm_swap|]. now apply perm_skip.
Qed.

Lemma orderBy_perm (l : list AuditLog) :
  Permutation l (Audit.orderBy_created_at_desc tie l).
Proof.
  induction l as [|x r IH]; simpl; [constructor|].
  eapply perm_trans; [apply perm_skip, IH | apply insert_desc_perm].
Qed.

Lemma insert_desc_sorted (x : AuditLog) (l : list AuditLog) :
  StronglySorted newer_or_equal l ->
  StronglySorted newer_or_equal (Audit.insert_desc tie x l).
Proof.
  induction 1 as [|y r Hr IH Hy]; simpl.
  - constructor; constructor.
  - destruct ((log_created_at y <? log_created_at x)
              || ((log_created_at y =? log_created_at x) && tie x y))
      eqn:E.
    + assert (Hle : log_created_at y <= log_created_at x).
      { apply Bool.orb_true_iff in E. destruct E as [E|E].
        - apply Z.ltb_lt in E. lia.
        - apply Bool.andb_true_iff in E. destruct E as [E _].
          apply Z.eqb_eq in E. lia. }
      constructor.
      * now constructor.
      * constructor; [exact Hle|].
        eapply Forall_impl; [|exact Hy].
        unfold newer_or_equal. intros z Hz. lia.
    + apply Bool.orb_false_iff in E. destruct E as [E _].
      apply Z.ltb_ge in E. constructor; [exact IH|].
      eapply Permutation_Forall; [apply insert_desc_perm|].
      constructor; [unfold newer_or_equal; lia | exact Hy].
Qed.

Lemma orderBy_sorted (l : list AuditLog) :
  StronglySorted newer_or_equal (Audit.orderBy_created_at_desc tie l).
Proof.
  induction l as [|x r IH]; simpl; [constructor|].
  now apply insert_desc_sorted.
Qed.

Lemma Forall_firstn {A : Type} (P : A -> Prop) (n : nat) (l : list A) :
  Forall P l -> Forall P (firstn n l).
Proof.
  revert l. induction n as [|n IH]; intros [|a l] H; simpl;
    try constructor; inversion H; subst; auto.
Qed.

Lemma StronglySorted_firstn {A : Type} (R : A -> A -> Prop) (n : nat)
    (l : list A) :
  StronglySorted R l -> StronglySorted R (firstn n l).
Proof.
  revert l. induction n as [|n IH]; intros [|a l] H; simpl;
    try constructor; inversion H; subst; auto using Forall_firstn.
Qed.

Lemma StronglySorted_skipn {A : Type} (R : A -> A -> Prop) (n : nat)
    (l : list A) :
  StronglySorted R l -> StronglySorted R (skipn n l).
Proof.
  revert l. induction n as [|n IH]; intros [|a l] H; simpl; auto.
  inversion H; subst; auto.
Qed.

(** Every page the store can return is a run of consecutive rows of the
    ordered result. *)
Lemma findMany_sorted (st : Audit.AuditStore) (q : Audit.LogsQuery)
    (skip take : Z) (logs : list AuditLog) :
  Audit.findMany tie st q skip take = Some logs ->
  StronglySorted newer_or_equal logs.
Proof.
  unfold Audit.findMany, Audit.ordered_matches.
  set (ordered := Audit.orderBy_created_at_desc tie _).
  assert (Hs : StronglySorted newer_or_equal ordered)
    by apply orderBy_sorted.
  destruct (skip <? 0); [discriminate|].
  destruct (0 <=? take); intros H; injection H as <-.
  - now apply StronglySorted_firstn, StronglySorted_skipn.
  - rewrite skipn_rev, firstn_rev, rev_involutive.
    now apply StronglySorted_skipn, StronglySorted_firstn.
Qed.

Lemma count_ordered (st : Audit.AuditStore) (q : Audit.LogsQuery) :
  Z.of_nat (List.length (Audit.ordered_matches tie st q))
  = Audit.count st q.
Proof.
  unfold Audit.count, Audit.ordered_matches. f_equal.
  symmetry. apply Permutation_length, orderBy_perm.
Qed.

(** The entries of a 200 answer are in descending order of
    [created_at]. *)
Lemma answer_sorted (st : Audit.AuditStore) (q : Audit.LogsQuery)
    (logs : list AuditLog) (pg : Pagination) :
  Audit.get_logs_handler tie st q = json 200 (AuditPage logs pg) ->
  StronglySorted newer_or_equal logs.
Proof.
  unfold Audit.get_logs_handler.
  destruct (Audit.findMany tie st q _ _) as [found|] eqn:E;
    [|discriminate].
  intros H. injection H as <- _.
  exact (findMany_sorted st q _ _ found E).
Qed.

End OrderedRows.

(** [Math.ceil(t / s)] is the least [n] with [t <= n * s]. *)
Lemma Math_ceil_div_spec (t s : Z) :
  1 <= s ->
  exists n, Audit.Math_ceil_div t s = Finite n /\ (n - 1) * s < t <= n * s.
Proof.
  intros Hs. unfold Audit.Math_ceil_div.
  destruct (s =? 0) eqn:E; [apply Z.eqb_eq in E; lia|].
  exists (- (- t / s)). split; [reflexivity|].
  pose proof (Z.div_mod (- t) s ltac:(lia)) as Hdm.
  pose proof (Z.mod_pos_bound (- t) s ltac:(lia)) as Hb.
  nia.
Qed.

(** C6 (amended). For a page size [s >= 1] and [t] matching entries the
    answer to page [p >= 1], with [p * s] within 32 bits, carries the
    total [t], the page count [ceil(t / s)] (the least [n] with
    [t <= n * s]) and the entries at positions
    [(p-1)*s+1 .. min(p*s, t)] of the ordered result, which is the
    matching entries in descending order of [created_at], entries of the
    same instant in the order the database gives them at this request; a
    page beyond the last is an empty list with the same totals.  A page
    [p < 1] is not served: the negative offset is rejected and the
    answer is 500 "Error fetching audit logs". *)
Theorem audit_page_contents (tie : Audit.TieOrder) (st : Audit.AuditStore)
    (q : Audit.LogsQuery) (p s : Z) :
  or_else (Audit.q_page q) 1 = p ->
  or_else (Audit.q_limit q) 20 = s ->
  1 <= s ->
  (1 <= p -> p * s <= 2147483647 ->
   exists (logs : list AuditLog) (n : Z) (ordered : list AuditLog),
     Audit.get_logs_handler tie st q
     = json 200 (AuditPage logs
                   (mkPagination (Audit.count st q) p s (Finite n))) /\
     (n - 1) * s < Audit.count st q <= n * s /\
     Permutation (filter (Audit.matches q) (Audit.rows st)) ordered /\
     StronglySorted newer_or_equal ordered /\
     Z.of_nat (List.length logs)
     = Z.max 0 (Z.min (p * s) (Audit.count st q) - (p - 1) * s) /\
     (forall i : Z,
        (p - 1) * s < i <= Z.min (p * s) (Audit.count st q) ->
        nth_error logs (Z.to_nat (i - (p - 1) * s - 1))
        = nth_error ordered (Z.to_nat (i - 1))) /\
     (n < p -> logs = [])) /\
  (p < 1 ->
   Audit.get_logs_handler tie st q
   = json 500 (Message "Error fetching audit logs")).
Proof.
  intros Hp Hs Hs1. unfold Audit.get_logs_handler. rewrite Hp, Hs.
  unfold Audit.findMany.
  pose proof (count_ordered tie st q) as Hlen.
  assert (Hperm : Permutation (filter (Audit.matches q) (Audit.rows st))
                    (Audit.ordered_matches tie st q))
    by apply orderBy_perm.
  assert (Hsorted : StronglySorted newer_or_equal
                      (Audit.ordered_matches tie st q))
    by apply orderBy_sorted.
  set (ordered := Audit.ordered_matches tie st q) in *.
  set (t := Audit.count st q) in *.
  split.
  - intros Hp1 _.
    assert (Hskip : 0 <= (p - 1) * s) by nia.
    destruct ((p - 1) * s <? 0) eqn:E1; [apply Z.ltb_lt in E1; lia|].
    destruct (0 <=? s) eqn:E2; [|apply Z.leb_gt in E2; lia].
    destruct (Math_ceil_div_spec t s Hs1) as (n & Hn & Hbound).
    exists (firstn (Z.to_nat s) (skipn (Z.to_nat ((p - 1) * s)) ordered)),
      n, ordered.
    rewrite Hn. split; [reflexivity|]. split; [exact Hbound|].
    split; [exact Hperm|]. split; [exact Hsorted|].
    split; [|split].
    + rewrite length_firstn, length_skipn. lia.
    + intros i Hi. rewrite nth_error_firstn, nth_error_skipn.
      destruct (Nat.ltb_spec (Z.to_nat (i - (p - 1) * s - 1)) (Z.to_nat s))
        as [_|Hge]; [|lia].
      f_equal. lia.
    + intros Hnp. rewrite skipn_all2; [apply firstn_nil|]. nia.
  - intros Hp0.
    destruct ((p - 1) * s <? 0) eqn:E1; [reflexivity|].
    apply Z.ltb_ge in E1. nia.
Qed.

(** The boundary case of the specification: 25 entries, 20 per page. *)
Example pagination_25_by_20 :
  (exists logs,
     Audit.get_logs_handler later_id_first twenty_five
       (no_filter (Some 1) (Some 20))
     = json 200 (AuditPage logs (mkPagination 25 1 20 (Finite 2)))
     /\ List.length logs = 20%nat) /\
  (exists logs,
     Audit.get_logs_handler later_id_first twenty_five
       (no_filter (Some 2) (Some 20))
     = json 200 (AuditPage logs (mkPagination 25 2 20 (Finite 2)))
     /\ List.length logs = 5%nat) /\
  Audit.get_logs_handler later_id_first twenty_five
    (no_filter (Some 3) (Some 20))
  = json 200 (AuditPage [] (mkPagination 25 3 20 (Finite 2))).
Proof.
  split; [|split]; [eexists; split; [vm_compute; reflexivity|reflexivity]..|].
  vm_compute. reflexivity.
Qed.

Lemma audit_page_contents_witness :
  Audit.get_logs_handler later_id_first twenty_five
    (no_filter (Some 0) (Some 20))
  = json 500 (Message "Error fetching audit logs").
Proof.
  refine (proj2 (audit_page_contents later_id_first twenty_five
                   (no_filter (Some 0) (Some 20)) 0 20
                   eq_refl eq_refl _) _); lia.
Defined.

(** C6 (as stated, refuted). With 25 entries and 20 per page, page 0 is
    out of range; the answer is the 500 error, not an empty list with
    the totals 25 and 2. *)
Lemma page_zero_is_an_error :
  Audit.count twenty_five (no_filter (Some 0) (Some 20)) = 25 /\
  Audit.get_logs_handler later_id_first twenty_five
    (no_filter (Some 0) (Some 20))
  = json 500 (Message "Error fetching audit logs") /\
  Audit.get_logs_handler later_id_first twenty_five
    (no_filter (Some 0) (Some 20))
  <> json 200 (AuditPage [] (mkPagination 25 0 20 (Finite 2))).
Proof.
  split; [reflexivity|]. split; [reflexivity|]. vm_compute. discriminate.
Qed.

(** The order of two entries written at the same instant is the
    database's: the route answers with whichever it is given.  The
    first of the two answers is in the order the specification words. *)
Example same_instant_either_order :
  logs_of (Audit.get_logs_handler later_id_first same_instant
             (no_filter None None)) = [second_of_two; first_of_two] /\
  logs_of (Audit.get_logs_handler earlier_id_first same_instant
             (no_filter None None)) = [first_of_two; second_of_two] /\
  StronglySorted spec_before [second_of_two; first_of_two].
Proof.
  split; [reflexivity|]. split; [reflexivity|].
  constructor; [constructor; constructor|].
  constructor; [|constructor].
  right. split; [reflexivity|]. simpl. lia.
Qed.

(** * Further properties *)

(** *** Deleting a user *)

Lemma findUnique_filter_other (db : Users) (k j : Z) :
  j <> k ->
  findUnique (filter (fun u => negb (id u =? k)) db) j = findUnique db j.
Proof.
  intros Hjk. unfold findUnique.
  induction db as [|u db IH]; simpl; [reflexivity|].
  destruct (id u =? k) eqn:Ek; simpl.
  - apply Z.eqb_eq in Ek.
    destruct (id u =? j) eqn:Ej; [apply Z.eqb_eq in Ej; congruence|].
    exact IH.
  - destruct (id u =? j); [reflexivity | exact IH].
Qed.

Lemma findUnique_filter_self (db : Users) (k : Z) :
  findUnique (filter (fun u => negb (id u =? k)) db) k = None.
Proof.
  unfold findUnique.
  induction db as [|u db IH]; simpl; [reflexivity|].
  destruct (id u =? k) eqn:Ek; simpl; [exact IH|].
  now rewrite Ek.
Qed.

Lemma delete_handler_status (db : Users) (st : Audit.AuditStore) (k : Z) :
  status (fst (PrismaRoutes.delete_user_handler db st k)) <> 200 ->
  snd (PrismaRoutes.delete_user_handler db st k) = (db, st).
Proof.
  unfold PrismaRoutes.delete_user_handler.
  destruct (findUnique db k); [|reflexivity].
  destruct (PrismaRoutes.user_delete db st k); simpl; [lia|reflexivity].
Qed.

(** X1. [DELETE /users/:id] removes an account only for an admin
    deleting another account or a moderator deleting a basic user; any
    answer other than 200 leaves both tables as they were. *)
Theorem delete_needs_permission (db : Users) (st : Audit.AuditStore)
    (token : Token) (k : Z) :
  (status (fst (PrismaRoutes.DELETE_users_id db st token k)) = 200 ->
   exists actor target,
     Prisma.authenticate db token = Continue actor /\
     findUnique db k = Some target /\
     ((role actor = admin /\ id actor <> k) \/
      (role actor = moderator /\ role target = user))) /\
  (status (fst (PrismaRoutes.DELETE_users_id db st token k)) <> 200 ->
   snd (PrismaRoutes.DELETE_users_id db st token k) = (db, st)).
Proof.
  unfold PrismaRoutes.DELETE_users_id.
  destruct (Prisma.authenticate db token) as [actor|r] eqn:Hauth.
  2:{ split; [|reflexivity]. simpl. intros Hs.
      unfold Prisma.authenticate in Hauth.
      destruct token as [| |d]; try (injection Hauth as <-; discriminate).
      destruct (findUnique db (userId d)); [discriminate|].
      injection Hauth as <-. discriminate. }
  destruct (Prisma.checkUserPermissions db (Some actor) DELETE k)
    as [[]|r] eqn:Hperm.
  - split; [|apply delete_handler_status].
    intros Hs. unfold PrismaRoutes.delete_user_handler in Hs.
    destruct (findUnique db k) as [target|] eqn:Hfind; [|discriminate].
    exists actor, target. split; [reflexivity|]. split; [reflexivity|].
    unfold Prisma.checkUserPermissions in Hperm. rewrite Hfind in Hperm.
    destruct (role actor) eqn:Hr; simpl in Hperm.
    + left. split; [reflexivity|].
      destruct (id actor =? k) eqn:E; [discriminate|].
      now apply Z.eqb_neq.
    + right. split; [reflexivity|].
      destruct (role target); simpl in Hperm; congruence.
    + destruct (id actor =? k); discriminate.
  - split; [|reflexivity]. simpl. intros Hs.
    unfold Prisma.checkUserPermissions in Hperm.
    destruct (role actor); simpl in Hperm.
    + destruct (id actor =? k); [|discriminate].
      injection Hperm as <-. discriminate.
    + destruct (findUnique db k) as [t|].
      * destruct (role t); simpl in Hperm; try discriminate;
          injection Hperm as <-; discriminate.
      * injection Hperm as <-. discriminate.
    + destruct (id actor =? k); injection Hperm as <-; discriminate.
Qed.

Lemma delete_needs_permission_witness :
  snd (PrismaRoutes.DELETE_users_id directory empty_store
         (Verified (mkJwt 1 admin)) 1) = (directory, empty_store).
Proof.
  refine (proj2 (delete_needs_permission directory empty_store
                   (Verified (mkJwt 1 admin)) 1) _).
  vm_compute. discriminate.
Defined.

(** X2. After a successful [DELETE /users/:id] the id has no account,
    every other id has the account it had, and the audit entries keep
    their number, ids and order with no entry naming the deleted id as
    actor or target. *)
Theorem delete_removes_exactly_one (db : Users) (st : Audit.AuditStore)
    (token : Token) (k : Z) (db' : Users) (st' : Audit.AuditStore) :
  PrismaRoutes.DELETE_users_id db st token k
  = (json 200 (Message "User deleted successfully"), (db', st')) ->
  findUnique db' k = None /\
  (forall j, j <> k -> findUnique db' j = findUnique db j) /\
  map log_id (Audit.rows st') = map log_id (Audit.rows st) /\
  Audit.next_id st' = Audit.next_id st /\
  (forall e, In e (Audit.rows st') ->
     actor_user_id e <> k /\ target_user_id e <> Some k).
Proof.
  unfold PrismaRoutes.DELETE_users_id.
  destruct (Prisma.authenticate db token) as [actor|r] eqn:Hauth.
  2:{ intros H. exfalso. injection H as -> _ _.
      unfold Prisma.authenticate in Hauth.
      destruct token as [| |d]; try discriminate.
      destruct (findUnique db (userId d)); discriminate. }
  destruct (Prisma.checkUserPermissions db (Some actor) DELETE k)
    as [[]|r] eqn:Hperm.
  2:{ intros H. exfalso. injection H as -> _ _.
      unfold Prisma.checkUserPermissions in Hperm.
      destruct (role actor); simpl in Hperm;
        repeat match type of Hperm with
               | context [if ?c then _ else _] => destruct c
               | context [match findUnique ?d ?x with _ => _ end] =>
                   destruct (findUnique d x)
               end; simpl in Hperm; discriminate. }
  unfold PrismaRoutes.delete_user_handler, PrismaRoutes.user_delete.
  destruct (findUnique db k); [|discriminate].
  destruct (existsb _ (Audit.rows st)) eqn:Hactor; [discriminate|].
  intros H. injection H as <- <-. simpl.
  split; [apply findUnique_filter_self|].
  split; [intros j Hj; now apply findUnique_filter_other|].
  split.
  { rewrite map_map. apply map_ext. intros e.
    unfold PrismaRoutes.clear_target.
    destruct (target_user_id e) as [t|]; [|reflexivity].
    destruct (t =? k); reflexivity. }
  split; [reflexivity|].
  intros e' Hin. apply in_map_iff in Hin. destruct Hin as (e & <- & Hin).
  assert (Ha : actor_user_id e <> k).
  { intros Heq. apply Bool.not_true_iff_false in Hactor. apply Hactor.
    apply existsb_exists. exists e. split; [exact Hin|].
    now apply Z.eqb_eq. }
  unfold PrismaRoutes.clear_target.
  destruct (target_user_id e) as [t|] eqn:Ht.
  - destruct (t =? k) eqn:Etk; simpl.
    + split; [exact Ha | discriminate].
    + rewrite Ht. split; [exact Ha|].
      apply Z.eqb_neq in Etk. congruence.
  - rewrite Ht. split; [exact Ha | discriminate].
Qed.

Lemma delete_removes_exactly_one_witness :
  findUnique (filter (fun u => negb (id u =? 4)) directory) 4 = None.
Proof.
  exact (proj1 (delete_removes_exactly_one directory empty_store
                  (Verified (mkJwt 3 moderator)) 4
                  (filter (fun u => negb (id u =? 4)) directory)
                  empty_store eq_refl)).
Defined.

(** X3. In the SQL version a moderator's DELETE passes the permission
    middleware for every target: any existing account, whatever its
    role, is removed. *)
Theorem sql_moderator_deletes_any_account (db : Users) (moderator_id k : Z)
    (target : User) :
  findUnique db k = Some target ->
  SqlRoutes.DELETE_users_id db (Verified (mkJwt moderator_id moderator)) k
  = (json 200 (Message "User deleted successfully"),
     filter (fun u => negb (id u =? k)) db) /\
  findUnique
    (snd (SqlRoutes.DELETE_users_id db
            (Verified (mkJwt moderator_id moderator)) k)) k = None.
Proof.
  intros Hfind.
  assert (E : SqlRoutes.DELETE_users_id db
                (Verified (mkJwt moderator_id moderator)) k
              = (json 200 (Message "User deleted successfully"),
                 filter (fun u => negb (id u =? k)) db)).
  { unfold SqlRoutes.DELETE_users_id, SqlRoutes.delete_user_handler. simpl.
    pose proof (select_by_id_find db k) as H. rewrite Hfind in H.
    destruct (Sql.select_by_id db k); [discriminate | reflexivity]. }
  split; [exact E|]. rewrite E. apply findUnique_filter_self.
Qed.

Lemma sql_moderator_deletes_any_account_witness :
  findUnique
    (snd (SqlRoutes.DELETE_users_id directory
            (Verified (mkJwt 3 moderator)) 1)) 1 = None.
Proof.
  exact (proj2 (sql_moderator_deletes_any_account directory 3 1 alice
                  eq_refl)).
Defined.

(** *** Client and server *)

(** X4. The delete button of the user table is shown exactly for the
    rows whose deletion the server's middleware allows. *)
Theorem canDelete_matches_server (db : Users) (actor target : User) :
  findUnique db (id target) = Some target ->
  Client.canDelete (Some (select_public actor)) (select_public target)
    = true <->
  decision (Prisma.checkUserPermissions db (Some actor) DELETE (id target))
    = Some ALLOW.
Proof.
  intros Hfind.
  unfold Client.canDelete, Prisma.checkUserPermissions. simpl.
  rewrite Hfind. rewrite (Z.eqb_sym (id target) (id actor)).
  destruct (role actor); simpl.
  - destruct (id actor =? id target); cbn; split; congruence.
  - destruct (role target); cbn; split; congruence.
  - destruct (id actor =? id target); cbn; split; congruence.
Qed.

Lemma canDelete_matches_server_witness :
  Client.canDelete (Some (select_public mona)) (select_public carol) = true.
Proof.
  apply (proj2 (canDelete_matches_server directory mona carol eq_refl)).
  reflexivity.
Defined.

(** X5. The edit button is shown for every row the server lets the
    caller update; it is also shown, and the server refuses the update,
    exactly when a moderator looks at a basic user other than itself. *)
Theorem canEdit_versus_server (db : Users) (actor target : User) :
  (decision (Prisma.checkUserPermissions db (Some actor) PUT (id target))
     = Some ALLOW ->
   Client.canEdit (Some (select_public actor)) (select_public target)
     = true) /\
  ((Client.canEdit (Some (select_public actor)) (select_public target)
      = true /\
    decision (Prisma.checkUserPermissions db (Some actor) PUT (id target))
      = Some (DENY "access denied")) <->
   (role actor = moderator /\ role target = user /\
    id target <> id actor)).
Proof.
  unfold Client.canEdit, Prisma.checkUserPermissions. simpl.
  rewrite (Z.eqb_sym (id target) (id actor)).
  destruct (role actor); cbn.
  - split; [reflexivity|]. split; [intros [_ H]; discriminate|].
    intros [H _]; discriminate.
  - destruct (id actor =? id target) eqn:E; cbn.
    + apply Z.eqb_eq in E. rewrite Bool.orb_true_r.
      split; [reflexivity|]. split; [intros [_ H]; discriminate|].
      intros (_ & _ & H). congruence.
    + apply Z.eqb_neq in E. rewrite Bool.orb_false_r.
      split; [discriminate|].
      destruct (role target); cbn; split;
        try (intros [H _]; discriminate);
        try (intros (_ & H & _); discriminate).
      * intros _. repeat split. congruence.
      * intros _. split; reflexivity.
  - destruct (id actor =? id target) eqn:E; cbn.
    + split; [reflexivity|]. split; [intros [_ H]; discriminate|].
      intros [H _]; discriminate.
    + split; [discriminate|]. split; [intros [H _]; discriminate|].
      intros [H _]; discriminate.
Qed.

Lemma canEdit_versus_server_witness :
  Client.canEdit (Some (select_public alice)) (select_public bob) = true.
Proof.
  apply (proj1 (canEdit_versus_server directory alice bob)).
  reflexivity.
Defined.

(** *** Who reads the audit log *)

(** X6. [GET /audit/logs] hands out entries to admins only, judged by
    the role stored for the token's user, not by the role written in
    the token: any other stored role is answered 403 "Access denied". *)
Theorem audit_logs_admin_only (tie : Audit.TieOrder) (users : Users)
    (st : Audit.AuditStore) (token : Token) (q : Audit.LogsQuery) :
  (forall logs pg,
     payload (Audit.GET_audit_logs tie users st token q)
     = AuditPage logs pg ->
     exists decoded actor,
       token = Verified decoded /\
       findUnique users (userId decoded) = Some actor /\
       role actor = admin) /\
  (forall decoded actor,
     token = Verified decoded ->
     findUnique users (userId decoded) = Some actor ->
     role actor <> admin ->
     Audit.GET_audit_logs tie users st token q
     = json 403 (Message "Access denied")).
Proof.
  unfold Audit.GET_audit_logs, Prisma.authenticate, Prisma.authorize.
  split.
  - intros logs pg.
    destruct token as [| |decoded]; simpl; try discriminate.
    destruct (findUnique users (userId decoded)) as [actor|] eqn:Hf;
      simpl; [|discriminate].
    destruct (role actor) eqn:Hr; simpl; try discriminate.
    intros _. exists decoded, actor. repeat split; assumption.
  - intros decoded actor -> Hf Hr. rewrite Hf.
    destruct (role actor); simpl; congruence.
Qed.

Lemma audit_logs_admin_only_witness :
  Audit.GET_audit_logs later_id_first directory twenty_five (Verified (mkJwt 3 admin))
    (no_filter None None) = json 403 (Message "Access denied").
Proof.
  refine (proj2 (audit_logs_admin_only later_id_first directory twenty_five
                   (Verified (mkJwt 3 admin)) (no_filter None None))
            (mkJwt 3 admin) mona eq_refl eq_refl _).
  discriminate.
Defined.

(** *** What an update leaves alone *)

(** X7. [PUT /users/:id] never touches another account, and changes
    neither the id nor the creation date of any account: whoever calls
    and whatever the body, the ids and creation dates of the table are
    the same afterwards, every other id keeps its row, and an answer
    other than 200 means nothing was written. *)
Theorem update_touches_one_row
    (bcrypt_hash : string -> string -> string) (db : Users)
    (token : Token) (k : Z) (body : UpdateBody) (now : Z) (salt : string) :
  let after :=
    snd (Prisma.PUT_users_id bcrypt_hash db token k body now salt) in
  map id after = map id db /\
  map created_at after = map created_at db /\
  (forall j, j <> k -> findUnique after j = findUnique db j) /\
  (status (fst (Prisma.PUT_users_id bcrypt_hash db token k body now salt))
     <> 200 -> after = db).
Proof.
  intros after. subst after.
  destruct (put_outcome bcrypt_hash db token k body now salt)
    as [[Hs ->] | [Hs (upd & u' & Hupd)]].
  - repeat split; auto.
  - apply user_update_shape in Hupd. destruct Hupd as (-> & _ & _).
    split; [|split; [|split]].
    + rewrite map_map. apply map_ext. intros r.
      destruct (id r =? k); reflexivity.
    + rewrite map_map. apply map_ext. intros r.
      destruct (id r =? k); reflexivity.
    + intros j Hj. now apply findUnique_map_other.
    + intros Hne. congruence.
Qed.

Lemma update_touches_one_row_witness :
  findUnique
    (snd (Prisma.PUT_users_id toy_hash directory (Verified (mkJwt 1 admin))
            2 (mkBody (Some "Robert"%string) None None None None)
            9000 "$2a$10$")) 4
  = findUnique directory 4.
Proof.
  refine (proj1 (proj2 (proj2
    (update_touches_one_row toy_hash directory (Verified (mkJwt 1 admin))
       2 (mkBody (Some "Robert"%string) None None None None)
       9000 "$2a$10$"))) 4 _).
  discriminate.
Defined.

(** X8. An admin can give any account any role: an update that carries
    only a role is answered 200, the stored role becomes the requested
    one, and the other columns keep their values ([updated_at] is set
    to the time of the update). *)
Theorem admin_sets_role (bcrypt_hash : string -> string -> string)
    (db : Users) (token : Token) (actor target : User) (k : Z)
    (r : Role) (now : Z) (salt : string) :
  Prisma.authenticate db token = Continue actor ->
  role actor = admin ->
  findUnique db k = Some target ->
  let updated :=
    mkUser (id target) (first_name target) (last_name target)
           (email target) (password target) r (created_at target) now in
  fst (Prisma.PUT_users_id bcrypt_hash db token k
         (mkBody None None None (Some r) None) now salt)
  = json 200 (MessageUser "User updated successfully"
                (select_public updated)) /\
  findUnique
    (snd (Prisma.PUT_users_id bcrypt_hash db token k
            (mkBody None None None (Some r) None) now salt)) k
  = Some updated.
Proof.
  intros Hauth Hrole Hfind updated.
  unfold Prisma.PUT_users_id. rewrite Hauth.
  unfold Prisma.checkUserPermissions. rewrite Hrole. simpl.
  unfold Prisma.put_user_handler. rewrite Hfind. simpl.
  rewrite Hrole. simpl.
  unfold Prisma.user_update. rewrite Hfind. simpl.
  split; [reflexivity|].
  rewrite findUnique_map_self by reflexivity. rewrite Hfind. reflexivity.
Qed.

Lemma admin_sets_role_witness :
  option_map role
    (findUnique
       (snd (Prisma.PUT_users_id toy_hash directory
               (Verified (mkJwt 1 admin)) 2
               (mkBody None None None (Some moderator) None)
               9000 "$2a$10$")) 2)
  = Some moderator.
Proof.
  rewrite (proj2 (admin_sets_role toy_hash directory
                    (Verified (mkJwt 1 admin)) alice bob 2 moderator 9000
                    "$2a$10$" eq_refl eq_refl eq_refl)).
  reflexivity.
Defined.

(** *** Creating a user *)

Lemma existsb_false_find {A : Type} (f : A -> bool) (l : list A) :
  existsb f l = false -> find f l = None.
Proof.
  induction l as [|a l IH]; simpl; [reflexivity|].
  destruct (f a); simpl; [discriminate | exact IH].
Qed.

Lemma find_app_new {A : Type} (f : A -> bool) (l : list A) (a : A) :
  find f l = None -> f a = true -> find f (l ++ [a]) = Some a.
Proof.
  induction l as [|b l IH]; simpl; intros Hn Ha.
  - now rewrite Ha.
  - destruct (f b); [discriminate | now apply IH].
Qed.

Lemma user_create_shape (db db' : Users) (new_id : Z)
    (first last : option string) (e hashed : string) (r : option Role)
    (now : Z) (u : User) :
  PrismaRoutes.user_create db new_id first last e hashed r now
  = Some (db', u) ->
  exists f l,
    first = Some f /\ last = Some l /\
    u = mkUser new_id f l e hashed (or_else r user) now now /\
    db' = db ++ [u] /\
    existsb (fun row => String.eqb (email row) e) db = false /\
    existsb (fun row => id row =? new_id) db = false.
Proof.
  unfold PrismaRoutes.user_create.
  destruct first as [f|]; [|discriminate].
  destruct last as [l|]; [|discriminate].
  destruct (Nat.leb (String.length f) 100); [|discriminate].
  destruct (Nat.leb (String.length l) 100); [|discriminate].
  destruct (Nat.leb (String.length e) 255); [|discriminate].
  destruct (existsb (fun row => String.eqb (email row) e) db) eqn:E1;
    [discriminate|].
  destruct (existsb (fun row => id row =? new_id) db) eqn:E2;
    [discriminate|].
  simpl. intros H. injection H as <- <-.
  exists f, l. repeat split; reflexivity.
Qed.

(** The cases of [POST /users]. *)
Lemma create_user_cases (bcrypt_hash : string -> string -> string)
    (db : Users) (token : Token) (body : UpdateBody) (new_id now : Z)
    (salt : string) :
  let answer :=
    PrismaRoutes.POST_users bcrypt_hash db token body new_id now salt in
  (status (fst answer) = 201 ->
   exists actor f l e p,
     Prisma.authenticate db token = Continue actor /\
     role actor = admin /\
     b_first_name body = Some f /\ b_last_name body = Some l /\
     b_email body = Some e /\ b_password body = Some p /\
     Js.includes "@" e = true /\ Sql.validatePassword p = true /\
     findUniqueByEmail db e = None /\ findUnique db new_id = None /\
     snd answer
     = db ++ [mkUser new_id f l e (bcrypt_hash p salt)
                (or_else (b_role body) user) now now]) /\
  (status (fst answer) <> 201 -> snd answer = db) /\
  (forall actor,
     Prisma.authenticate db token = Continue actor ->
     role actor <> admin ->
     answer = (json 403 (Message "Only admin can create users"), db)).
Proof.
  intros answer. subst answer. unfold PrismaRoutes.POST_users.
  destruct (Prisma.authenticate db token) as [actor|r] eqn:Hauth.
  2:{ simpl. rewrite (authenticate_reply_status _ _ _ Hauth).
      split; [lia|]. split; [reflexivity | discriminate]. }
  unfold PrismaRoutes.create_user_handler.
  destruct (role actor) eqn:Hrole; simpl.
  2,3: split; [lia|]; split; [reflexivity|]; intros a Ha _;
       reflexivity.
  destruct (b_email body) as [e|] eqn:He; simpl.
  2:{ split; [lia|]. split; [reflexivity|]. intros a Ha Hr.
      injection Ha as <-. congruence. }
  destruct (Js.includes "@" e) eqn:Hat; simpl.
  2:{ split; [lia|]. split; [reflexivity|]. intros a Ha Hr.
      injection Ha as <-. congruence. }
  destruct (b_password body) as [p|] eqn:Hp; simpl.
  2:{ split; [lia|]. split; [reflexivity|]. intros a Ha Hr.
      injection Ha as <-. congruence. }
  destruct (Prisma.weak_password p) eqn:Hweak; simpl.
  1:{ split; [lia|]. split; [reflexivity|]. intros a Ha Hr.
      injection Ha as <-. congruence. }
  destruct (PrismaRoutes.user_create db new_id _ _ e _ _ now)
    as [[db' u]|] eqn:Hc; simpl.
  2:{ split; [lia|]. split; [reflexivity|]. intros a Ha Hr.
      injection Ha as <-. congruence. }
  apply user_create_shape in Hc.
  destruct Hc as (f & l & Hf & Hl & -> & -> & Hmail & Hid).
  split; [|split; [congruence|]].
  - intros _. exists actor, f, l, e, p. repeat split; try assumption.
    + unfold Sql.validatePassword. unfold Prisma.weak_password in Hweak.
      apply Bool.orb_false_iff in Hweak. destruct Hweak as [Hw H3].
      apply Bool.orb_false_iff in Hw. destruct Hw as [H1 H2].
      apply Bool.negb_false_iff in H2, H3. rewrite H2, H3.
      apply Nat.ltb_ge in H1. apply Nat.leb_le in H1. now rewrite H1.
    + now apply existsb_false_find.
    + now apply existsb_false_find.
  - intros a Ha Hr. injection Ha as <-. congruence.
Qed.

(** X9. [POST /users] adds an account only for an admin, and only with
    both names, an email containing "@" that no account holds, and a
    password of at least 8 characters with a lower-case and an
    upper-case letter: then exactly one row is appended, holding the
    hashed password and the role asked for ([user] when none is).  Any
    other answer leaves the table as it was; a caller that is not an
    admin gets 403 "Only admin can create users". *)
Theorem create_user_outcome (bcrypt_hash : string -> string -> string)
    (db : Users) (token : Token) (body : UpdateBody) (new_id now : Z)
    (salt : string) :
  let answer :=
    PrismaRoutes.POST_users bcrypt_hash db token body new_id now salt in
  (status (fst answer) = 201 ->
   exists actor f l e p,
     Prisma.authenticate db token = Continue actor /\
     role actor = admin /\
     b_first_name body = Some f /\ b_last_name body = Some l /\
     b_email body = Some e /\ b_password body = Some p /\
     Js.includes "@" e = true /\ Sql.validatePassword p = true /\
     findUniqueByEmail db e = None /\ findUnique db new_id = None /\
     snd answer
     = db ++ [mkUser new_id f l e (bcrypt_hash p salt)
                (or_else (b_role body) user) now now]) /\
  (status (fst answer) <> 201 -> snd answer = db) /\
  (forall actor,
     Prisma.authenticate db token = Continue actor ->
     role actor <> admin ->
     answer = (json 403 (Message "Only admin can create users"), db)).
Proof.
  exact (create_user_cases bcrypt_hash db token body new_id now salt).
Qed.

Lemma create_user_outcome_witness :
  PrismaRoutes.POST_users toy_hash directory (Verified (mkJwt 3 moderator))
    (mkBody (Some "Dan"%string) (Some "Webb"%string)
       (Some "dan@example.com"%string) (Some admin)
       (Some "Secret123"%string)) 5 9000 "$2a$10$"
  = (json 403 (Message "Only admin can create users"), directory).
Proof.
  refine (proj2 (proj2
    (create_user_outcome toy_hash directory (Verified (mkJwt 3 moderator))
       (mkBody (Some "Dan"%string) (Some "Webb"%string)
          (Some "dan@example.com"%string) (Some admin)
          (Some "Secret123"%string)) 5 9000 "$2a$10$")) mona eq_refl _).
  discriminate.
Defined.

(** X10. An account just created can log in: with the email and the
    password of the request, [POST /auth/login] answers 200 and sets a
    token for the new id and role, provided bcrypt accepts the password
    against its own hash. *)
Theorem created_user_can_log_in
    (bcrypt_hash : string -> string -> string)
    (bcrypt_compare : string -> string -> bool)
    (db : Users) (token : Token) (body : UpdateBody) (new_id now : Z)
    (salt e p : string) :
  status (fst (PrismaRoutes.POST_users bcrypt_hash db token body new_id
                 now salt)) = 201 ->
  b_email body = Some e -> b_password body = Some p ->
  bcrypt_compare p (bcrypt_hash p salt) = true ->
  exists created,
    Prisma.POST_login bcrypt_compare
      (snd (PrismaRoutes.POST_users bcrypt_hash db token body new_id now
              salt)) e p
    = mkResponse 200 (MessageUser "Login successful" created)
        (Some (mkJwt new_id (or_else (b_role body) user))) /\
    fst (PrismaRoutes.POST_users bcrypt_hash db token body new_id now salt)
    = json 201 (MessageUser "User created successfully" created).
Proof.
  intros Hs He Hp Hcmp.
  destruct (create_user_cases bcrypt_hash db token body new_id now salt)
    as (Hcreated & _ & _).
  destruct (Hcreated Hs)
    as (actor & f & l & e' & p' & Hauth & Hrole & Hf & Hl & He' & Hp'
        & Hat & Hval & Hfree & Hfresh & Hafter).
  rewrite He in He'. injection He' as <-.
  rewrite Hp in Hp'. injection Hp' as <-.
  exists (select_public (mkUser new_id f l e (bcrypt_hash p salt)
                           (or_else (b_role body) user) now now)).
  split.
  - rewrite Hafter. unfold Prisma.POST_login, findUniqueByEmail.
    rewrite (find_app_new _ db _ Hfree) by (simpl; apply String.eqb_refl).
    simpl. rewrite Hcmp. reflexivity.
  - clear Hcreated Hafter.
    unfold PrismaRoutes.POST_users in *. rewrite Hauth in *.
    unfold PrismaRoutes.create_user_handler in *.
    rewrite Hrole, He, Hp in *. simpl in *. rewrite Hat in *. simpl in *.
    destruct (Prisma.weak_password p); [simpl in Hs; lia|].
    unfold PrismaRoutes.user_create in *. rewrite Hf, Hl in *.
    match goal with
    | |- context [if ?c then _ else _] => destruct c
    end; [reflexivity | simpl in Hs; lia].
Qed.

Lemma created_user_can_log_in_witness :
  exists created,
    Prisma.POST_login toy_compare
      (snd (PrismaRoutes.POST_users toy_hash directory
              (Verified (mkJwt 1 admin))
              (mkBody (Some "Dan"%string) (Some "Webb"%string)
                 (Some "dan@example.com"%string) None
                 (Some "Secret123"%string)) 5 9000 "$2a$10$"))
      "dan@example.com" "Secret123"
    = mkResponse 200 (MessageUser "Login successful" created)
        (Some (mkJwt 5 user)) /\
    fst (PrismaRoutes.POST_users toy_hash directory
           (Verified (mkJwt 1 admin))
           (mkBody (Some "Dan"%string) (Some "Webb"%string)
              (Some "dan@example.com"%string) None
              (Some "Secret123"%string)) 5 9000 "$2a$10$")
    = json 201 (MessageUser "User created successfully" created).
Proof.
  exact (created_user_can_log_in toy_hash toy_compare directory
           (Verified (mkJwt 1 admin))
           (mkBody (Some "Dan"%string) (Some "Webb"%string)
              (Some "dan@example.com"%string) None
              (Some "Secret123"%string)) 5 9000 "$2a$10$"
           "dan@example.com" "Secret123" eq_refl eq_refl eq_refl eq_refl).
Defined.

(** *** Invariants of the tables *)

Lemma delete_outcome (db : Users) (st : Audit.AuditStore) (token : Token)
    (k : Z) :
  snd (PrismaRoutes.DELETE_users_id db st token k) = (db, st) \/
  (existsb (fun e => actor_user_id e =? k) (Audit.rows st) = false /\
   snd (PrismaRoutes.DELETE_users_id db st token k)
   = (filter (fun u => negb (id u =? k)) db,
      Audit.mkStore (map (PrismaRoutes.clear_target k) (Audit.rows st))
                    (Audit.next_id st))).
Proof.
  unfold PrismaRoutes.DELETE_users_id.
  destruct (Prisma.authenticate db token) as [actor|r]; [|now left].
  destruct (Prisma.checkUserPermissions db (Some actor) DELETE k)
    as [[]|r]; [|now left].
  unfold PrismaRoutes.delete_user_handler, PrismaRoutes.user_delete.
  destruct (findUnique db k); [|now left].
  destruct (existsb _ (Audit.rows st)) eqn:E; [now left|].
  right. split; reflexivity.
Qed.

Lemma init_admin_outcome (bcrypt_hash : string -> string -> string)
    (db : Users) (body : PrismaRoutes.InitBody) (new_id now : Z)
    (salt : string) :
  (exists r,
     PrismaRoutes.POST_init_admin bcrypt_hash db body new_id now salt
     = (PrismaRoutes.InitReply r, db)) \/
  (db = [] /\
   exists f l e p,
     PrismaRoutes.i_first_name body = Some f /\
     PrismaRoutes.i_last_name body = Some l /\
     PrismaRoutes.i_email body = Some e /\
     PrismaRoutes.i_password body = Some p /\
     PrismaRoutes.POST_init_admin bcrypt_hash db body new_id now salt
     = (PrismaRoutes.InitCreated "Admin user created successfully"
          (PrismaRoutes.mkSummary new_id f l e admin) (mkJwt new_id admin),
        [mkUser new_id f l e (bcrypt_hash p salt) admin now now])).
Proof.
  unfold PrismaRoutes.POST_init_admin.
  destruct (PrismaRoutes.checkFirstUser db) eqn:Hfirst; simpl;
    [|left; eauto].
  assert (Hdb : db = []).
  { unfold PrismaRoutes.checkFirstUser in Hfirst. apply Z.eqb_eq in Hfirst.
    destruct db; [reflexivity | simpl in Hfirst; lia]. }
  destruct (PrismaRoutes.i_email body) as [e|] eqn:He; simpl;
    [|left; eauto].
  destruct (Js.includes "@" e); simpl; [|left; eauto].
  destruct (PrismaRoutes.i_password body) as [p|] eqn:Hp; simpl;
    [|left; eauto].
  destruct (Prisma.weak_password p); simpl; [left; eauto|].
  destruct (PrismaRoutes.user_create db new_id _ _ e _ _ now)
    as [[db' u]|] eqn:Hc; [|left; eauto].
  right. split; [exact Hdb|].
  apply user_create_shape in Hc.
  destruct Hc as (f & l & Hf & Hl & -> & -> & _ & _).
  exists f, l, e, p. subst db. simpl. repeat split; auto.
Qed.

Lemma NoDup_map_filter {A B : Type} (g : A -> B) (f : A -> bool)
    (l : list A) :
  NoDup (map g l) -> NoDup (map g (filter f l)).
Proof.
  induction l as [|a l IH]; simpl; intros H; [constructor|].
  inversion H as [|x xs Hnot Hnd]; subst.
  destruct (f a); simpl; [|now apply IH].
  constructor; [|now apply IH].
  intros Hin. apply Hnot. apply in_map_iff in Hin.
  destruct Hin as (b & Hb & Hin). apply filter_In in Hin.
  apply in_map_iff. exists b. tauto.
Qed.

Lemma emails_after_update (e : string) (k : Z) (f : User -> User)
    (db : Users) :
  (forall u, email (f u) = e) ->
  NoDup (map id db) -> NoDup (map email db) ->
  (forall r, In r db -> id r <> k -> email r <> e) ->
  NoDup (map email (map (fun r => if id r =? k then f r else r) db)).
Proof.
  intros Hf. induction db as [|r rest IH]; simpl; intros Hid Hmail Hfree;
    [constructor|].
  inversion Hid as [|x xs Hidn Hidr]; subst.
  inversion Hmail as [|y ys Hmn Hmr]; subst.
  assert (Hrest : NoDup (map email
            (map (fun r0 => if id r0 =? k then f r0 else r0) rest))).
  { apply IH; auto. }
  constructor; [|exact Hrest].
  rewrite map_map. intros Hin. apply in_map_iff in Hin.
  destruct Hin as (r2 & Heq & Hin2).
  destruct (id r =? k) eqn:Ek.
  - apply Z.eqb_eq in Ek. rewrite Hf in Heq.
    assert (Hr2 : id r2 <> k).
    { intros E2. apply Hidn. apply in_map_iff. exists r2.
      split; [congruence | exact Hin2]. }
    destruct (id r2 =? k) eqn:E2; [apply Z.eqb_eq in E2; congruence|].
    apply (Hfree r2 (or_intror Hin2) Hr2). exact Heq.
  - apply Z.eqb_neq in Ek.
    destruct (id r2 =? k) eqn:E2.
    + rewrite Hf in Heq.
      apply (Hfree r (or_introl eq_refl) Ek). now symmetry.
    + apply Hmn. apply in_map_iff. exists r2. split; assumption.
Qed.

Lemma update_keeps_unique (db db' : Users) (k : Z) (upd : Updates)
    (now : Z) (u' : User) :
  users_unique db ->
  Prisma.user_update db k upd now = Some (db', u') ->
  users_unique db'.
Proof.
  intros [Hid Hmail] Hupd. apply user_update_shape in Hupd.
  destruct Hupd as (-> & _ & Hfree). split.
  - replace (map id (map _ db)) with (map id db); [exact Hid|].
    rewrite map_map. apply map_ext. intros r.
    destruct (id r =? k); reflexivity.
  - unfold email_free in Hfree.
    destruct (u_email upd) as [e|] eqn:He.
    + apply emails_after_update with (e := e); auto.
      * intros u. unfold apply_updates. simpl. now rewrite He.
      * intros r Hin Hk Heq. apply Bool.negb_true_iff in Hfree.
        apply Bool.not_true_iff_false in Hfree. apply Hfree.
        apply existsb_exists. exists r. split; [exact Hin|].
        apply Z.eqb_neq in Hk. rewrite Hk. simpl.
        now apply String.eqb_eq.
    + replace (map email (map _ db)) with (map email db); [exact Hmail|].
      rewrite map_map. apply map_ext. intros r.
      destruct (id r =? k); [|reflexivity].
      unfold apply_updates. simpl. now rewrite He.
Qed.

Lemma append_keeps_unique (db : Users) (u : User) :
  users_unique db ->
  existsb (fun row => String.eqb (email row) (email u)) db = false ->
  existsb (fun row => id row =? id u) db = false ->
  users_unique (db ++ [u]).
Proof.
  intros [Hid Hmail] He Hi. unfold users_unique.
  rewrite !map_app. simpl. split.
  - apply NoDup_app; [exact Hid | repeat constructor; intros [] |].
    intros a Ha [<-|[]]. apply in_map_iff in Ha.
    destruct Ha as (r & Hr & Hin).
    apply Bool.not_true_iff_false in Hi. apply Hi.
    apply existsb_exists. exists r. split; [exact Hin|].
    now apply Z.eqb_eq.
  - apply NoDup_app; [exact Hmail | repeat constructor; intros [] |].
    intros a Ha [<-|[]]. apply in_map_iff in Ha.
    destruct Ha as (r & Hr & Hin).
    apply Bool.not_true_iff_false in He. apply He.
    apply existsb_exists. exists r. split; [exact Hin|].
    now apply String.eqb_eq.
Qed.

(** X11. The primary key and the unique email of [users] survive every
    route that writes the table: if ids and emails are pairwise distinct
    before [PUT /users/:id], [POST /users], [DELETE /users/:id] or
    [POST /auth/init-admin], they are afterwards. *)
Theorem uniqueness_is_kept (bcrypt_hash : string -> string -> string)
    (db : Users) (st : Audit.AuditStore) (token : Token) (k : Z)
    (body : UpdateBody) (ibody : PrismaRoutes.InitBody) (new_id now : Z)
    (salt : string) :
  users_unique db ->
  users_unique
    (snd (Prisma.PUT_users_id bcrypt_hash db token k body now salt)) /\
  users_unique
    (snd (PrismaRoutes.POST_users bcrypt_hash db token body new_id now
            salt)) /\
  users_unique (fst (snd (PrismaRoutes.DELETE_users_id db st token k))) /\
  users_unique
    (snd (PrismaRoutes.POST_init_admin bcrypt_hash db ibody new_id now
            salt)).
Proof.
  intros Hu. split; [|split; [|split]].
  - destruct (put_outcome bcrypt_hash db token k body now salt)
      as [[_ ->] | [_ (upd & u' & Hupd)]]; [exact Hu|].
    exact (update_keeps_unique _ _ _ _ _ _ Hu Hupd).
  - destruct (create_user_cases bcrypt_hash db token body new_id now salt)
      as (Hcreated & Hsame & _).
    destruct (Z.eq_dec
                (status (fst (PrismaRoutes.POST_users bcrypt_hash db token
                                body new_id now salt))) 201) as [E|E].
    + destruct (Hcreated E)
        as (actor & f & l & e & p & _ & _ & _ & _ & _ & _ & _ & _
            & Hfree & Hfresh & ->).
      apply append_keeps_unique; [exact Hu | |]; simpl.
      * destruct (existsb _ db) eqn:Hex; [|reflexivity].
        apply existsb_exists in Hex. destruct Hex as (r & Hin & Hr).
        unfold findUniqueByEmail in Hfree.
        pose proof (find_none _ _ Hfree r Hin) as Hn. simpl in Hn.
        congruence.
      * destruct (existsb _ db) eqn:Hex; [|reflexivity].
        apply existsb_exists in Hex. destruct Hex as (r & Hin & Hr).
        unfold findUnique in Hfresh.
        pose proof (find_none _ _ Hfresh r Hin) as Hn. simpl in Hn.
        congruence.
    + now rewrite (Hsame E).
  - destruct (delete_outcome db st token k) as [-> | [_ ->]];
      [exact Hu|]. simpl. destruct Hu as [Hid Hmail].
    split; now apply NoDup_map_filter.
  - destruct (init_admin_outcome bcrypt_hash db ibody new_id now salt)
      as [[r ->] | [_ (f & l & e & p & _ & _ & _ & _ & ->)]];
      [exact Hu|].
    simpl. split; repeat constructor; intros [].
Qed.

Lemma uniqueness_is_kept_witness :
  users_unique
    (snd (Prisma.PUT_users_id toy_hash directory (Verified (mkJwt 1 admin))
            2 (mkBody None None (Some "carol@example.com"%string) None None)
            9000 "$2a$10$")).
Proof.
  refine (proj1 (uniqueness_is_kept toy_hash directory empty_store
                   (Verified (mkJwt 1 admin)) 2
                   (mkBody None None (Some "carol@example.com"%string)
                      None None)
                   (PrismaRoutes.mkInitBody None None None None)
                   5 9000 "$2a$10$" _)).
  split; repeat constructor; simpl; intuition discriminate.
Defined.

Lemma has_user_ids (db db' : Users) (j : Z) :
  map id db' = map id db -> Audit.has_user db' j = Audit.has_user db j.
Proof.
  unfold Audit.has_user. revert db'.
  induction db as [|u db IH]; intros [|u' db'] H; simpl in *;
    try discriminate; [reflexivity|].
  injection H as Hu Hrest. rewrite Hu. f_equal. now apply IH.
Qed.

Lemma has_user_append (db : Users) (u : User) (j : Z) :
  Audit.has_user db j = true -> Audit.has_user (db ++ [u]) j = true.
Proof.
  unfold Audit.has_user. intros H. rewrite existsb_app, H. reflexivity.
Qed.

Lemma has_user_filter (db : Users) (k j : Z) :
  j <> k ->
  Audit.has_user (filter (fun u => negb (id u =? k)) db) j
  = Audit.has_user db j.
Proof.
  intros Hjk. unfold Audit.has_user.
  induction db as [|u db IH]; simpl; [reflexivity|].
  destruct (id u =? k) eqn:Ek; simpl.
  - apply Z.eqb_eq in Ek.
    destruct (id u =? j) eqn:Ej; [apply Z.eqb_eq in Ej; congruence|].
    exact IH.
  - now rewrite IH.
Qed.

Lemma logUserAction_shape (users : Users) (st st' : Audit.AuditStore)
    (now actorId : Z) (ty : string) (targetId : option Z)
    (meta : option Metadata) (ip : option string) (e : AuditLog) :
  Audit.logUserAction users st now actorId ty targetId meta ip
  = Some (st', e) ->
  e = mkAuditLog (Audit.next_id st) actorId ty targetId
        (Audit.metadata_or_empty meta) ip now /\
  st' = Audit.mkStore (Audit.rows st ++ [e]) (Audit.next_id st + 1) /\
  Audit.has_user users actorId = true /\
  (forall t, targetId = Some t -> Audit.has_user users t = true).
Proof.
  unfold Audit.logUserAction.
  destruct (Audit.has_user users actorId) eqn:Ha; [|discriminate].
  destruct targetId as [t|].
  - destruct (Audit.has_user users t) eqn:Ht; [|discriminate]. simpl.
    destruct (match ip with Some a => _ | None => true end);
      [|discriminate].
    intros H. injection H as <- <-. repeat split; auto.
    intros t' Ht'. injection Ht' as <-. exact Ht.
  - simpl.
    destruct (match ip with Some a => _ | None => true end);
      [|discriminate].
    intros H. injection H as <- <-. repeat split; auto. discriminate.
Qed.

Lemma logUserEdit_shape (users : Users) (st st' : Audit.AuditStore)
    (now actorId targetId : Z) (oldData newData : Audit.JsObject)
    (ip : option string) (written : option AuditLog) :
  Audit.logUserEdit users st now actorId targetId oldData newData ip
  = Some (st', written) ->
  (Audit.edit_changes oldData newData = [] /\ written = None /\ st' = st)
  \/
  (Audit.edit_changes oldData newData <> [] /\
   exists e, written = Some e /\
     Audit.logUserAction users st now actorId Audit.EDIT_USER
       (Some targetId)
       (Some (MChanges (Audit.edit_changes oldData newData))) ip
     = Some (st', e)).
Proof.
  unfold Audit.logUserEdit.
  destruct (Audit.edit_changes oldData newData) as [|c cs] eqn:Hc; simpl.
  - intros H. injection H as <- <-. left. auto.
  - destruct (Audit.logUserAction users st now actorId Audit.EDIT_USER
                (Some targetId) (Some (MChanges (c :: cs))) ip)
      as [[st1 e]|] eqn:Hlog; [|discriminate].
    intros H. injection H as <- <-. right. split; [discriminate|].
    exists e. split; reflexivity.
Qed.

Lemma references_after_log (users : Users) (st st' : Audit.AuditStore)
    (now actorId : Z) (ty : string) (targetId : option Z)
    (meta : option Metadata) (ip : option string) (e : AuditLog) :
  references_hold users st ->
  Audit.logUserAction users st now actorId ty targetId meta ip
  = Some (st', e) ->
  references_hold users st'.
Proof.
  intros Href Hlog. apply logUserAction_shape in Hlog.
  destruct Hlog as (-> & -> & Ha & Ht).
  intros e Hin. simpl in Hin. apply in_app_or in Hin.
  destruct Hin as [Hin | [<- | []]]; [now apply Href|].
  simpl. split; assumption.
Qed.

(** X12. Every audit entry keeps naming accounts that exist: if each
    actor and each target of the audit log is a row of [users], this
    still holds after an update, a creation or a deletion of a user and
    after [logUserAction] or [logUserEdit] wrote an entry. *)
Theorem audit_references_are_kept
    (bcrypt_hash : string -> string -> string) (db : Users)
    (st : Audit.AuditStore) (token : Token) (k : Z) (body : UpdateBody)
    (new_id now : Z) (salt : string) :
  references_hold db st ->
  references_hold
    (snd (Prisma.PUT_users_id bcrypt_hash db token k body now salt)) st /\
  references_hold
    (snd (PrismaRoutes.POST_users bcrypt_hash db token body new_id now
            salt)) st /\
  references_hold
    (fst (snd (PrismaRoutes.DELETE_users_id db st token k)))
    (snd (snd (PrismaRoutes.DELETE_users_id db st token k))) /\
  (forall actorId ty targetId meta ip st' e,
     Audit.logUserAction db st now actorId ty targetId meta ip
     = Some (st', e) -> references_hold db st') /\
  (forall actorId targetId oldData newData ip st' written,
     Audit.logUserEdit db st now actorId targetId oldData newData ip
     = Some (st', written) -> references_hold db st').
Proof.
  intros Href. split; [|split; [|split; [|split]]].
  - assert (Hids : map id (snd (Prisma.PUT_users_id bcrypt_hash db token
                                  k body now salt)) = map id db).
    { destruct (put_outcome bcrypt_hash db token k body now salt)
        as [[_ ->] | [_ (upd & u' & Hupd)]]; [reflexivity|].
      apply user_update_shape in Hupd. destruct Hupd as (-> & _ & _).
      rewrite map_map. apply map_ext. intros r.
      destruct (id r =? k); reflexivity. }
    intros e Hin. destruct (Href e Hin) as [Ha Ht].
    split; [now rewrite (has_user_ids _ _ _ Hids)|].
    intros t Hsome. rewrite (has_user_ids _ _ _ Hids). now apply Ht.
  - destruct (create_user_cases bcrypt_hash db token body new_id now salt)
      as (Hcreated & Hsame & _).
    destruct (Z.eq_dec
                (status (fst (PrismaRoutes.POST_users bcrypt_hash db token
                                body new_id now salt))) 201) as [E|E].
    + destruct (Hcreated E)
        as (actor & f & l & e0 & p & _ & _ & _ & _ & _ & _ & _ & _
            & _ & _ & ->).
      intros e Hin. destruct (Href e Hin) as [Ha Ht].
      split; [now apply has_user_append|].
      intros t Hsome. apply has_user_append. now apply Ht.
    + now rewrite (Hsame E).
  - destruct (delete_outcome db st token k) as [-> | [Hactor ->]];
      [exact Href|]. simpl.
    intros e' Hin. simpl in Hin. apply in_map_iff in Hin.
    destruct Hin as (e & <- & Hin). destruct (Href e Hin) as [Ha Ht].
    assert (Hne : actor_user_id e <> k).
    { intros Heq. apply Bool.not_true_iff_false in Hactor. apply Hactor.
      apply existsb_exists. exists e. split; [exact Hin|].
      now apply Z.eqb_eq. }
    unfold PrismaRoutes.clear_target.
    destruct (target_user_id e) as [t|] eqn:Htarget.
    + destruct (t =? k) eqn:Etk; simpl.
      * split; [now rewrite has_user_filter | discriminate].
      * rewrite Htarget. split; [now rewrite has_user_filter|].
        intros t' Ht'. injection Ht' as <-. apply Z.eqb_neq in Etk.
        rewrite has_user_filter by exact Etk. now apply Ht.
    + rewrite Htarget. split; [now rewrite has_user_filter | discriminate].
  - intros actorId ty targetId meta ip st' e Hlog.
    exact (references_after_log _ _ _ _ _ _ _ _ _ _ Href Hlog).
  - intros actorId targetId oldData newData ip st' written Hedit.
    apply logUserEdit_shape in Hedit.
    destruct Hedit as [(_ & _ & ->) | (_ & e & _ & Hlog)]; [exact Href|].
    exact (references_after_log _ _ _ _ _ _ _ _ _ _ Href Hlog).
Qed.

Lemma audit_references_are_kept_witness :
  references_hold
    (fst (snd (PrismaRoutes.DELETE_users_id directory same_instant
                 (Verified (mkJwt 1 admin)) 4)))
    (snd (snd (PrismaRoutes.DELETE_users_id directory same_instant
                 (Verified (mkJwt 1 admin)) 4))).
Proof.
  refine (proj1 (proj2 (proj2
    (audit_references_are_kept toy_hash directory same_instant
       (Verified (mkJwt 1 admin)) 4
       (mkBody None None None None None) 5 9000 "$2a$10$" _)))).
  intros e [<- | [<- | []]]; split; try reflexivity; discriminate.
Defined.

(** *** First admin, login and session *)

Lemma findUnique_of_In (db : Users) (u : User) :
  NoDup (map id db) -> In u db -> findUnique db (id u) = Some u.
Proof.
  unfold findUnique. induction db as [|r db IH]; simpl; intros Hnd Hin;
    [contradiction|].
  inversion Hnd as [|x xs Hnot Hrest]; subst.
  destruct Hin as [-> | Hin].
  - now rewrite Z.eqb_refl.
  - destruct (id r =? id u) eqn:E; [|now apply IH].
    exfalso. apply Hnot. apply Z.eqb_eq in E. rewrite E.
    now apply in_map.
Qed.

(** X13. [POST /auth/init-admin] works once.  On a table that holds any
    account it answers 403 "Admin already exists" and writes nothing.
    When it creates the account, the table was empty and now holds that
    one account, with role admin; the token it sets opens a session as
    that admin; and every later call is refused. *)
Theorem init_admin_only_once (bcrypt_hash : string -> string -> string)
    (db : Users) (body : PrismaRoutes.InitBody) (new_id now : Z)
    (salt : string) :
  (db <> [] ->
   PrismaRoutes.POST_init_admin bcrypt_hash db body new_id now salt
   = (PrismaRoutes.InitReply (json 403 (Message "Admin already exists")),
      db)) /\
  (forall message summary token db',
     PrismaRoutes.POST_init_admin bcrypt_hash db body new_id now salt
     = (PrismaRoutes.InitCreated message summary token, db') ->
     db = [] /\
     (exists row,
        db' = [row] /\ role row = admin /\
        PrismaRoutes.as_id summary = id row /\
        PrismaRoutes.GET_session db' (Verified token)
        = json 200 (OneUser (select_public row))) /\
     (forall body2 id2 now2 salt2,
        PrismaRoutes.POST_init_admin bcrypt_hash db' body2 id2 now2 salt2
        = (PrismaRoutes.InitReply
             (json 403 (Message "Admin already exists")), db'))).
Proof.
  split.
  - intros Hdb. unfold PrismaRoutes.POST_init_admin.
    destruct db as [|u db]; [congruence | reflexivity].
  - intros message summary token db' Hres.
    destruct (init_admin_outcome bcrypt_hash db body new_id now salt)
      as [[r Hr] | [Hdb (f & l & e & p & _ & _ & _ & _ & Hcreated)]].
    + rewrite Hr in Hres. discriminate.
    + rewrite Hcreated in Hres. injection Hres as <- <- <- <-.
      split; [exact Hdb|]. split.
      * eexists. split; [reflexivity|]. split; [reflexivity|].
        split; [reflexivity|].
        unfold PrismaRoutes.GET_session, Prisma.authenticate, findUnique.
        simpl. now rewrite Z.eqb_refl.
      * intros body2 id2 now2 salt2. reflexivity.
Qed.

Lemma init_admin_only_once_witness :
  PrismaRoutes.POST_init_admin toy_hash directory
    (PrismaRoutes.mkInitBody (Some "Eve"%string) (Some "Moss"%string)
       (Some "eve@example.com"%string) (Some "Secret123"%string))
    5 9000 "$2a$10$"
  = (PrismaRoutes.InitReply (json 403 (Message "Admin already exists")),
     directory).
Proof.
  refine (proj1 (init_admin_only_once toy_hash directory
                   (PrismaRoutes.mkInitBody (Some "Eve"%string)
                      (Some "Moss"%string) (Some "eve@example.com"%string)
                      (Some "Secret123"%string)) 5 9000 "$2a$10$") _).
  discriminate.
Defined.

(** X14. [POST /auth/login] sets the token cookie only when it answers
    200, that is when an account has the email and bcrypt accepts the
    password; the token names that account's id and role, and with ids
    unique [GET /auth/session] under that token returns the very user
    object the login answered with. *)
Theorem login_token_opens_session
    (bcrypt_compare : string -> string -> bool) (db : Users)
    (e p : string) (token : JwtPayload) :
  NoDup (map id db) ->
  cookie (Prisma.POST_login bcrypt_compare db e p) = Some token ->
  exists account,
    findUniqueByEmail db e = Some account /\
    bcrypt_compare p (password account) = true /\
    token = mkJwt (id account) (role account) /\
    Prisma.POST_login bcrypt_compare db e p
    = mkResponse 200
        (MessageUser "Login successful" (select_public account))
        (Some token) /\
    PrismaRoutes.GET_session db (Verified token)
    = json 200 (OneUser (select_public account)).
Proof.
  intros Hnd. unfold Prisma.POST_login.
  destruct (findUniqueByEmail db e) as [account|] eqn:Hfind;
    [|discriminate].
  destruct (bcrypt_compare p (password account)) eqn:Hcmp; simpl;
    [|discriminate].
  intros H. injection H as <-.
  exists account. repeat split; auto.
  unfold PrismaRoutes.GET_session, Prisma.authenticate. simpl.
  rewrite (findUnique_of_In db account Hnd); [reflexivity|].
  unfold findUniqueByEmail in Hfind. now apply find_some in Hfind.
Qed.

Lemma login_token_opens_session_witness :
  exists account,
    findUniqueByEmail directory "bob@example.com" = Some account /\
    PrismaRoutes.GET_session directory (Verified (mkJwt 2 user))
    = json 200 (OneUser (select_public account)).
Proof.
  destruct (login_token_opens_session toy_compare directory
              "bob@example.com" "bob" (mkJwt 2 user))
    as (account & H1 & _ & _ & _ & H5).
  - repeat constructor; simpl; intuition discriminate.
  - reflexivity.
  - exists account. split; assumption.
Defined.

(** *** Writing the audit log *)

Lemma ids_after_log (users : Users) (st st' : Audit.AuditStore)
    (now actorId : Z) (ty : string) (targetId : option Z)
    (meta : option Metadata) (ip : option string) (e : AuditLog) :
  sequence_ahead st -> NoDup (map log_id (Audit.rows st)) ->
  Audit.logUserAction users st now actorId ty targetId meta ip
  = Some (st', e) ->
  sequence_ahead st' /\ NoDup (map log_id (Audit.rows st')) /\
  ~ In (log_id e) (map log_id (Audit.rows st)).
Proof.
  intros Hseq Hnd Hlog. apply logUserAction_shape in Hlog.
  destruct Hlog as (-> & -> & _ & _). simpl.
  assert (Hfresh : ~ In (Audit.next_id st) (map log_id (Audit.rows st))).
  { intros Hin. apply in_map_iff in Hin. destruct Hin as (x & Hx & Hin).
    unfold sequence_ahead in Hseq. rewrite Forall_forall in Hseq.
    specialize (Hseq x Hin). lia. }
  split; [|split; [|exact Hfresh]].
  - unfold sequence_ahead. simpl. apply Forall_app. split.
    + eapply Forall_impl; [|exact Hseq]. simpl. intros x Hx. lia.
    + constructor; [simpl; lia | constructor].
  - rewrite map_app. simpl.
    apply NoDup_app; [exact Hnd | repeat constructor; intros [] |].
    intros a Ha [<-|[]]. now apply Hfresh.
Qed.

(** X15. Audit ids are never reused: while the id sequence is ahead of
    every stored entry and the stored ids are distinct, an entry written
    by [logUserAction] or [logUserEdit] gets an id no stored entry has,
    and both facts hold again afterwards. *)
Theorem audit_ids_stay_unique (users : Users) (st : Audit.AuditStore)
    (now : Z) :
  sequence_ahead st -> NoDup (map log_id (Audit.rows st)) ->
  (forall actorId ty targetId meta ip st' e,
     Audit.logUserAction users st now actorId ty targetId meta ip
     = Some (st', e) ->
     sequence_ahead st' /\ NoDup (map log_id (Audit.rows st')) /\
     ~ In (log_id e) (map log_id (Audit.rows st))) /\
  (forall actorId targetId oldData newData ip st' written,
     Audit.logUserEdit users st now actorId targetId oldData newData ip
     = Some (st', written) ->
     sequence_ahead st' /\ NoDup (map log_id (Audit.rows st')) /\
     (forall e, written = Some e ->
                ~ In (log_id e) (map log_id (Audit.rows st)))).
Proof.
  intros Hseq Hnd. split.
  - intros actorId ty targetId meta ip st' e Hlog.
    exact (ids_after_log _ _ _ _ _ _ _ _ _ _ Hseq Hnd Hlog).
  - intros actorId targetId oldData newData ip st' written Hedit.
    apply logUserEdit_shape in Hedit.
    destruct Hedit as [(_ & -> & ->) | (_ & e & -> & Hlog)].
    + split; [exact Hseq|]. split; [exact Hnd | discriminate].
    + destruct (ids_after_log _ _ _ _ _ _ _ _ _ _ Hseq Hnd Hlog)
        as (H1 & H2 & H3).
      split; [exact H1|]. split; [exact H2|].
      intros e' He'. injection He' as <-. exact H3.
Qed.

Lemma audit_ids_stay_unique_witness :
  NoDup (map log_id (Audit.rows three_entries)).
Proof.
  refine (proj1 (proj2 (proj1
    (audit_ids_stay_unique directory same_instant 9000 _ _)
    1 Audit.LOGOUT None None None three_entries third_entry eq_refl))).
  - repeat constructor; simpl; lia.
  - repeat constructor; simpl; intuition discriminate.
Defined.

(** X16. [logUserEdit] only ever appends.  When it returns, the stored
    entries are the old ones followed by at most one new entry; an
    entry is written exactly when some field of the post-image changed,
    and it is an EDIT_USER entry for the given actor and target that
    carries the change list, the next id and the current time. *)
Theorem edit_entry_written_iff_changed (users : Users)
    (st st' : Audit.AuditStore) (now actorId targetId : Z)
    (oldData newData : Audit.JsObject) (ip : option string)
    (written : option AuditLog) :
  Audit.logUserEdit users st now actorId targetId oldData newData ip
  = Some (st', written) ->
  (written = None <-> Audit.edit_changes oldData newData = []) /\
  Audit.rows st'
  = Audit.rows st ++ match written with Some e => [e] | None => [] end /\
  (forall e, written = Some e ->
     e = mkAuditLog (Audit.next_id st) actorId Audit.EDIT_USER
           (Some targetId)
           (MChanges (Audit.edit_changes oldData newData)) ip now).
Proof.
  intros Hedit. apply logUserEdit_shape in Hedit.
  destruct Hedit as [(Hc & -> & ->) | (Hc & e & -> & Hlog)].
  - split; [tauto|]. split; [now rewrite app_nil_r | discriminate].
  - apply logUserAction_shape in Hlog. destruct Hlog as (He & -> & _ & _).
    split; [split; [discriminate | contradiction]|].
    split; [reflexivity|].
    intros e' He'. injection He' as <-. exact He.
Qed.

Lemma edit_entry_written_iff_changed_witness :
  Audit.rows
    (Audit.mkStore
       [mkAuditLog 1 1 Audit.EDIT_USER (Some 2)
          (MChanges [mkChange "first_name" (JStr "Bob") (JStr "Robert")])
          None 9000] 2)
  = Audit.rows empty_store
    ++ [mkAuditLog 1 1 Audit.EDIT_USER (Some 2)
          (MChanges [mkChange "first_name" (JStr "Bob") (JStr "Robert")])
          None 9000].
Proof.
  exact (proj1 (proj2
    (edit_entry_written_iff_changed directory empty_store _ 9000 1 2
       bob_before bob_renamed None _ eq_refl))).
Defined.

(** *** Reading the audit log *)

Lemma In_orderBy (tie : Audit.TieOrder) (l : list AuditLog)
    (e : AuditLog) :
  In e (Audit.orderBy_created_at_desc tie l) <-> In e l.
Proof.
  split; intros H.
  - eapply Permutation_in; [apply Permutation_sym, orderBy_perm | exact H].
  - eapply Permutation_in; [apply orderBy_perm | exact H].
Qed.

Lemma In_firstn {A : Type} (n : nat) (l : list A) (a : A) :
  In a (firstn n l) -> In a l.
Proof.
  revert l. induction n as [|n IH]; intros [|b l]; simpl; try tauto.
  intros [H | H]; [now left | right; now apply IH].
Qed.

Lemma In_skipn {A : Type} (n : nat) (l : list A) (a : A) :
  In a (skipn n l) -> In a l.
Proof.
  revert l. induction n as [|n IH]; intros [|b l]; simpl; try tauto.
  intros H. right. now apply IH.
Qed.

Lemma findMany_subset (tie : Audit.TieOrder) (st : Audit.AuditStore)
    (q : Audit.LogsQuery) (skip take : Z) (logs : list AuditLog)
    (e : AuditLog) :
  Audit.findMany tie st q skip take = Some logs ->
  In e logs -> In e (Audit.ordered_matches tie st q).
Proof.
  unfold Audit.findMany. destruct (skip <? 0); [discriminate|].
  destruct (0 <=? take); intros H; injection H as <-; intros Hin.
  - eapply In_skipn, In_firstn, Hin.
  - apply in_rev in Hin. apply In_firstn, In_skipn in Hin.
    now apply in_rev.
Qed.

Lemma findMany_length (tie : Audit.TieOrder) (st : Audit.AuditStore)
    (q : Audit.LogsQuery) (skip take : Z) (logs : list AuditLog) :
  Audit.findMany tie st q skip take = Some logs ->
  Z.of_nat (List.length logs) <= Z.abs take.
Proof.
  unfold Audit.findMany. destruct (skip <? 0); [discriminate|].
  destruct (0 <=? take) eqn:E; intros H; injection H as <-.
  - rewrite length_firstn. apply Z.leb_le in E. lia.
  - rewrite length_rev, length_firstn. apply Z.leb_gt in E. lia.
Qed.

(** X17. Filters are conjunctive and nothing is made up: every entry of
    an answer of [GET /audit/logs] is a stored entry whose action type
    is the requested one (when one is given) and whose [created_at]
    lies between [from] and [to], both inclusive (when given). *)
Theorem audit_answer_respects_filters (tie : Audit.TieOrder)
    (st : Audit.AuditStore) (q : Audit.LogsQuery) (e : AuditLog) :
  In e (logs_of (Audit.get_logs_handler tie st q)) ->
  In e (Audit.rows st) /\
  (forall ty, Audit.q_action_type q = Some ty -> ty <> EmptyString ->
              action_type e = ty) /\
  (forall f, Audit.q_from q = Some f -> f <= log_created_at e) /\
  (forall t, Audit.q_to q = Some t -> log_created_at e <= t).
Proof.
  unfold Audit.get_logs_handler.
  destruct (Audit.findMany tie st q _ _) as [logs|] eqn:Hfind;
    [|simpl; contradiction].
  simpl. intros Hin.
  apply (findMany_subset _ _ _ _ _ _ _ Hfind) in Hin.
  unfold Audit.ordered_matches in Hin.
  apply (proj1 (In_orderBy _ _ _)) in Hin.
  apply filter_In in Hin. destruct Hin as [Hrow Hm].
  split; [exact Hrow|].
  unfold Audit.matches in Hm.
  apply Bool.andb_true_iff in Hm. destruct Hm as [Hm Hto].
  apply Bool.andb_true_iff in Hm. destruct Hm as [Hty Hfrom].
  split; [|split].
  - intros ty Hq Hne. rewrite Hq in Hty. simpl in Hty.
    destruct (String.eqb ty EmptyString) eqn:E;
      [apply String.eqb_eq in E; contradiction|].
    simpl in Hty. now apply String.eqb_eq.
  - intros f Hq. rewrite Hq in Hfrom. now apply Z.leb_le.
  - intros t Hq. rewrite Hq in Hto. now apply Z.leb_le.
Qed.

Lemma audit_answer_respects_filters_witness :
  In first_of_two (Audit.rows same_instant).
Proof.
  refine (proj1 (audit_answer_respects_filters earlier_id_first
                   same_instant (no_filter None None) first_of_two _)).
  left. reflexivity.
Defined.

(** X18. An answer of [GET /audit/logs] is never longer than the page
    size asked for (20 when none is given), however many entries
    match. *)
Theorem audit_page_is_bounded (tie : Audit.TieOrder)
    (st : Audit.AuditStore) (q : Audit.LogsQuery) :
  0 <= or_else (Audit.q_limit q) 20 ->
  Z.of_nat (List.length (logs_of (Audit.get_logs_handler tie st q)))
  <= or_else (Audit.q_limit q) 20.
Proof.
  intros Hlimit. unfold Audit.get_logs_handler.
  destruct (Audit.findMany tie st q _ _) as [logs|] eqn:Hfind.
  - pose proof (findMany_length _ _ _ _ _ _ Hfind) as Hlen.
    unfold logs_of, json. cbn [payload]. lia.
  - unfold logs_of, json. cbn [payload List.length]. lia.
Qed.

Lemma audit_page_is_bounded_witness :
  Z.of_nat (List.length
              (logs_of (Audit.get_logs_handler later_id_first
                          twenty_five (no_filter None None)))) <= 20.
Proof.
  refine (audit_page_is_bounded later_id_first twenty_five
            (no_filter None None) _).
  simpl. lia.
Defined.

(** X19. A written entry is counted and found: after [logUserAction]
    the total of a query grows by one exactly when the new entry passes
    its filters, and then the entry is among the ordered results. *)
Theorem written_entry_is_counted (tie : Audit.TieOrder) (users : Users)
    (st st' : Audit.AuditStore) (now actorId : Z) (ty : string)
    (targetId : option Z) (meta : option Metadata) (ip : option string)
    (e : AuditLog) (q : Audit.LogsQuery) :
  Audit.logUserAction users st now actorId ty targetId meta ip
  = Some (st', e) ->
  Audit.count st' q
  = Audit.count st q + (if Audit.matches q e then 1 else 0) /\
  (Audit.matches q e = true -> In e (Audit.ordered_matches tie st' q)).
Proof.
  intros Hlog. apply logUserAction_shape in Hlog.
  destruct Hlog as (_ & -> & _ & _).
  unfold Audit.count, Audit.ordered_matches. simpl.
  rewrite filter_app. simpl. split.
  - rewrite length_app. destruct (Audit.matches q e); simpl; lia.
  - intros Hm. apply (proj2 (In_orderBy _ _ _)). rewrite Hm.
    apply in_or_app.
    right. now left.
Qed.

Lemma written_entry_is_counted_witness :
  Audit.count three_entries (no_filter None None)
  = Audit.count same_instant (no_filter None None)
    + (if Audit.matches (no_filter None None) third_entry then 1 else 0).
Proof.
  exact (proj1 (written_entry_is_counted later_id_first directory
                  same_instant
                  three_entries 9000 1 Audit.LOGOUT None None None
                  third_entry (no_filter None None) eq_refl)).
Defined.

(** X28. The entries of every answer of [GET /audit/logs] are in
    descending order of [created_at], newest first, whatever order the
    database gives to entries written at the same instant. *)
Theorem audit_logs_newest_first (tie : Audit.TieOrder)
    (st : Audit.AuditStore) (q : Audit.LogsQuery) (logs : list AuditLog)
    (pg : Pagination) :
  Audit.get_logs_handler tie st q = json 200 (AuditPage logs pg) ->
  StronglySorted newer_or_equal logs.
Proof. apply answer_sorted. Qed.

Lemma audit_logs_newest_first_witness :
  StronglySorted newer_or_equal [third_entry; first_of_two; second_of_two].
Proof.
  exact (audit_logs_newest_first earlier_id_first three_entries
           (no_filter None None) [third_entry; first_of_two; second_of_two]
           (mkPagination 3 1 20 (Finite 1)) eq_refl).
Defined.

Lemma firstn_plus {A : Type} (a b : nat) (l : list A) :
  firstn (a + b) l = firstn a l ++ firstn b (skipn a l).
Proof.
  revert l. induction a as [|a IH]; intros l; simpl; [reflexivity|].
  destruct l as [|x l]; simpl; [now rewrite firstn_nil|].
  now rewrite IH.
Qed.

Lemma chunks_concat {A : Type} (s n : nat) (l : list A) :
  List.concat (map (fun i => firstn s (skipn ((i - 1) * s) l)) (seq 1 n))
  = firstn (n * s) l.
Proof.
  induction n as [|n IH]; [reflexivity|].
  rewrite seq_S, map_app, concat_app, IH. simpl.
  rewrite app_nil_r, Nat.sub_0_r.
  rewrite (Nat.add_comm s (n * s)). symmetry. apply firstn_plus.
Qed.

Lemma page_of_slice (tie : Audit.TieOrder) (st : Audit.AuditStore)
    (q : Audit.LogsQuery) (s : Z) (i : nat) :
  or_else (Audit.q_limit q) 20 = s -> 1 <= s -> (1 <= i)%nat ->
  page_of tie st q (Z.of_nat i)
  = firstn (Z.to_nat s)
      (skipn ((i - 1) * Z.to_nat s) (Audit.ordered_matches tie st q)).
Proof.
  intros Hs Hs1 Hi. unfold page_of, Audit.get_logs_handler. simpl.
  rewrite Hs. unfold Audit.findMany.
  destruct ((Z.of_nat i - 1) * s <? 0) eqn:E1; [apply Z.ltb_lt in E1; nia|].
  destruct (0 <=? s) eqn:E2; [|apply Z.leb_gt in E2; lia].
  simpl. f_equal. f_equal.
  replace (Z.of_nat i - 1) with (Z.of_nat (i - 1)) by lia.
  rewrite Z2Nat.inj_mul by lia. now rewrite Nat2Z.id.
Qed.

(** Among rows written at distinct instants the tie order has no say. *)
Lemma insert_desc_tie_free (t1 t2 : Audit.TieOrder) (x : AuditLog)
    (l : list AuditLog) :
  ~ In (log_created_at x) (map log_created_at l) ->
  Audit.insert_desc t1 x l = Audit.insert_desc t2 x l.
Proof.
  induction l as [|y r IH]; simpl; intros Hx; [reflexivity|].
  assert (E : (log_created_at y =? log_created_at x) = false)
    by (apply Z.eqb_neq; intros H; apply Hx; now left).
  rewrite E. simpl. rewrite IH by tauto. reflexivity.
Qed.

Lemma orderBy_tie_free (t1 t2 : Audit.TieOrder) (l : list AuditLog) :
  NoDup (map log_created_at l) ->
  Audit.orderBy_created_at_desc t1 l = Audit.orderBy_created_at_desc t2 l.
Proof.
  induction l as [|x r IH]; simpl; intros Hnd; [reflexivity|].
  inversion Hnd as [|c cs Hx Hr]; subst.
  rewrite (IH Hr). apply insert_desc_tie_free.
  intros Hin. apply Hx.
  eapply Permutation_in; [|exact Hin].
  apply Permutation_map, Permutation_sym, orderBy_perm.
Qed.

(** X20. The pages of a query tile its result.  When the matching
    entries were written at pairwise distinct instants, then for a page
    size [s >= 1], once [n] pages cover the total, the answers to pages
    1, 2, ..., [n] put end to end are exactly the matching entries in
    descending order of [created_at], each once; whatever order the
    database would give to ties at each of the requests. *)
Theorem pages_tile_the_result (ties : nat -> Audit.TieOrder)
    (tie : Audit.TieOrder) (st : Audit.AuditStore) (q : Audit.LogsQuery)
    (s : Z) (n : nat) :
  or_else (Audit.q_limit q) 20 = s -> 1 <= s ->
  Audit.count st q <= Z.of_nat n * s ->
  Z.of_nat n * s <= 2147483647 ->
  NoDup (map log_created_at (filter (Audit.matches q) (Audit.rows st))) ->
  List.concat
    (map (fun i => page_of (ties i) st q (Z.of_nat i)) (seq 1 n))
  = Audit.ordered_matches tie st q.
Proof.
  intros Hs Hs1 Hcover _ Hnd.
  rewrite (map_ext_in _
             (fun i => firstn (Z.to_nat s)
                         (skipn ((i - 1) * Z.to_nat s)
                            (Audit.ordered_matches tie st q)))).
  - rewrite chunks_concat. apply firstn_all2.
    pose proof (count_ordered tie st q) as Hlen. nia.
  - intros i Hi. apply in_seq in Hi.
    rewrite (page_of_slice (ties i) st q s i Hs Hs1) by lia.
    unfold Audit.ordered_matches.
    now rewrite (orderBy_tie_free (ties i) tie _ Hnd).
Qed.

Lemma pages_tile_the_result_witness :
  page_of later_id_first twenty_five (no_filter None None) 1
  ++ page_of earlier_id_first twenty_five (no_filter None None) 2
  = Audit.ordered_matches later_id_first twenty_five (no_filter None None).
Proof.
  refine (eq_trans _
    (pages_tile_the_result
       (fun i => if Nat.eqb i 1 then later_id_first else earlier_id_first)
       later_id_first twenty_five (no_filter None None) 20 2
       eq_refl _ _ _ _)).
  - vm_compute. reflexivity.
  - lia.
  - vm_compute. discriminate.
  - lia.
  - simpl. repeat constructor; simpl; intuition discriminate.
Defined.

(** *** The update of the SQL revision *)

(** X22. In the SQL revision an update must carry an email: without a
    non-empty email containing "@" the handler answers 400 "Invalid
    email format" for every existing target and writes nothing.  Its
    only other 400 is "Invalid role", for a role the caller may set and
    that is none of admin, moderator, user.  The password rule is not
    applied on update: with a valid email and no such role a password of
    any strength is accepted. *)
Theorem sql_update_validation (bcrypt_hash : string -> string -> string)
    (db : Users) (req_user : option Sql.ReqUser) (k : Z)
    (body : Sql.SqlBody) (now : Z) (salt : string) :
  Sql.select_by_id db k <> [] ->
  (Js.truthy (Sql.sb_email body) = false ->
   Sql.put_user_handler bcrypt_hash db req_user k body now salt
   = (json 400 (Message "Invalid email format"), db)) /\
  (forall e, Sql.sb_email body = Some e -> Js.includes "@" e = true ->
   (forall r, Sql.sb_role body = Some r ->
              Sql.role_of_string r <> None) ->
   status (fst (Sql.put_user_handler bcrypt_hash db req_user k body now
                  salt)) <> 400) /\
  (status (fst (Sql.put_user_handler bcrypt_hash db req_user k body now
                  salt)) = 400 ->
   Sql.put_user_handler bcrypt_hash db req_user k body now salt
   = (json 400 (Message "Invalid email format"), db) \/
   Sql.put_user_handler bcrypt_hash db req_user k body now salt
   = (json 400 (Message "Invalid role"), db)).
Proof.
  intros Hex. unfold Sql.put_user_handler.
  destruct (Sql.select_by_id db k) as [|existing rest]; [congruence|].
  unfold Sql.validateUser.
  cbn [Sql.p_email Sql.p_password Sql.p_role Js.truthy andb].
  split; [|split].
  - intros Ht. rewrite Ht. reflexivity.
  - intros e He Hat Hrole. rewrite He.
    assert (Htr : Js.truthy (Some e) = true).
    { destruct e; [discriminate | reflexivity]. }
    rewrite Htr, Hat. cbn [negb].
    assert (Hr : (Js.truthy
                    (if Js.truthy (Sql.sb_role body)
                        && Sql.may_set_role req_user existing
                     then Sql.sb_role body else None)
                  && match Sql.role_of_string
                             (or_else
                                (if Js.truthy (Sql.sb_role body)
                                    && Sql.may_set_role req_user existing
                                 then Sql.sb_role body else None)
                                EmptyString) with
                     | Some _ => false
                     | None => true
                     end) = false).
    { destruct (Js.truthy (Sql.sb_role body)
                && Sql.may_set_role req_user existing); [|reflexivity].
      destruct (Sql.sb_role body) as [r|]; [|reflexivity].
      specialize (Hrole r eq_refl). simpl.
      destruct (Sql.role_of_string r); [|congruence].
      apply Bool.andb_false_r. }
    rewrite Hr.
    match goal with
    | |- context [Sql.sql_update db k ?u now] =>
        destruct (Sql.sql_update db k u now) as [[db' [|x xs]]|]
    end; simpl; lia.
  - destruct (Js.truthy (Sql.sb_email body)); [|left; reflexivity].
    destruct (Sql.sb_email body) as [e|]; [|left; reflexivity].
    destruct (Js.includes "@" e); [|left; reflexivity]. cbn [negb].
    match goal with
    | |- context [if ?c then Some "Invalid role"%string else None] =>
        destruct c
    end; [right; reflexivity|].
    match goal with
    | |- context [Sql.sql_update db k ?u now] =>
        destruct (Sql.sql_update db k u now) as [[db' [|x xs]]|]
    end; simpl; intros H; lia.
Qed.

Lemma sql_update_validation_witness :
  Sql.put_user_handler toy_hash directory
    (Some (Sql.mkReqUser 1 admin)) 2
    (Sql.mkSqlBody (Some "Robert"%string) None None None None)
    9000 "$2a$10$"
  = (json 400 (Message "Invalid email format"), directory).
Proof.
  refine (proj1 (sql_update_validation toy_hash directory
                   (Some (Sql.mkReqUser 1 admin)) 2
                   (Sql.mkSqlBody (Some "Robert"%string) None None None
                      None)
                   9000 "$2a$10$" _) eq_refl).
  vm_compute. discriminate.
Defined.

(** An admin sending a role that is none of the three is answered 400
    "Invalid role". *)
Example sql_unknown_role_is_refused :
  Sql.put_user_handler toy_hash directory
    (Some (Sql.mkReqUser 1 admin)) 2
    (Sql.mkSqlBody None None (Some "bob@example.com"%string)
       (Some "superuser"%string) None) 9000 "$2a$10$"
  = (json 400 (Message "Invalid role"), directory).
Proof. reflexivity. Qed.

(** *** Failed logins *)



(** *** Passwords *)

Lemma test_range_spec (lo hi : nat) (s : string) :
  Js.test_range lo hi s = true <->
  exists c, In c (list_ascii_of_string s) /\
            (lo <= nat_of_ascii c <= hi)%nat.
Proof.
  induction s as [|d r IH]; simpl.
  - split; [discriminate | intros (c & [] & _)].
  - rewrite Bool.orb_true_iff, IH, Bool.andb_true_iff, !Nat.leb_le.
    split.
    + intros [H | (c & Hin & Hc)]; [exists d | exists c]; tauto.
    + intros (c & [<- | Hin] & Hc); [left; exact Hc | right; eauto].
Qed.

(** X23. One password rule, in both revisions: [validatePassword]
    accepts exactly the passwords of at least 8 characters that contain
    a letter a-z and a letter A-Z, and the check written out in the
    Prisma routes refuses exactly the passwords it rejects. *)
Theorem password_rule (p : string) :
  (Sql.validatePassword p = true <->
   (8 <= String.length p)%nat /\
   (exists c, In c (list_ascii_of_string p) /\
              (97 <= nat_of_ascii c <= 122)%nat) /\
   (exists c, In c (list_ascii_of_string p) /\
              (65 <= nat_of_ascii c <= 90)%nat)) /\
  Prisma.weak_password p = negb (Sql.validatePassword p).
Proof.
  split.
  - unfold Sql.validatePassword, Js.hasLowerCase, Js.hasUpperCase.
    rewrite !Bool.andb_true_iff, Nat.leb_le, !test_range_spec. tauto.
  - unfold Prisma.weak_password, Sql.validatePassword.
    rewrite !Bool.negb_andb, Nat.ltb_antisym. reflexivity.
Qed.

(** X24. What a successful update stores: each of first name, last
    name, email and password is replaced when the body carries a
    non-empty value for it (the password by its bcrypt hash) and is left
    as it was when the field is absent or empty.  [updated_at] becomes
    the time of the update when one of these fields is written; a body
    with no non-empty field and no role writes nothing, and the row
    stays as it was, [updated_at] included. *)
Theorem update_stores_supplied_fields
    (bcrypt_hash : string -> string -> string) (db : Users)
    (token : Token) (target : User) (k : Z) (body : UpdateBody) (now : Z)
    (salt : string) :
  findUnique db k = Some target ->
  status (fst (Prisma.PUT_users_id bcrypt_hash db token k body now salt))
    = 200 ->
  exists updated,
    findUnique
      (snd (Prisma.PUT_users_id bcrypt_hash db token k body now salt)) k
    = Some updated /\
    first_name updated
    = (if Js.truthy (b_first_name body)
       then or_else (b_first_name body) EmptyString
       else first_name target) /\
    last_name updated
    = (if Js.truthy (b_last_name body)
       then or_else (b_last_name body) EmptyString
       else last_name target) /\
    email updated
    = (if Js.truthy (b_email body)
       then or_else (b_email body) EmptyString
       else email target) /\
    password updated
    = (if Js.truthy (b_password body)
       then bcrypt_hash (or_else (b_password body) EmptyString) salt
       else password target) /\
    (writes_something (b_first_name body) (b_last_name body)
       (b_email body) (b_password body) false = true ->
     updated_at updated = now) /\
    (writes_something (b_first_name body) (b_last_name body)
       (b_email body) (b_password body) false = false ->
     b_role body = None -> updated = target).
Proof.
  intros Hfind Hs.
  destruct (put_success_stores bcrypt_hash db token target k body now salt
              Hfind Hs)
    as (actor & updated & _ & Hu & (H1 & H2 & H3 & H4) & _ & Hat & Hsame).
  exists updated. repeat split; try assumption.
  - intros Hw. rewrite Hat.
    unfold writes_something in *.
    rewrite Bool.orb_false_r in Hw. now rewrite Hw.
  - intros Hw Hrole. apply Hsame. rewrite Hrole. exact Hw.
Qed.

Lemma update_stores_supplied_fields_witness :
  exists updated,
    findUnique
      (snd (Prisma.PUT_users_id toy_hash directory
              (Verified (mkJwt 2 user)) 2
              (mkBody (Some "Robert"%string) (Some ""%string) None None
                 None) 9000 "$2a$10$")) 2
    = Some updated /\
    first_name updated = "Robert"%string /\
    last_name updated = "Reed"%string.
Proof.
  destruct (update_stores_supplied_fields toy_hash directory
              (Verified (mkJwt 2 user)) bob 2
              (mkBody (Some "Robert"%string) (Some ""%string) None None
                 None) 9000 "$2a$10$" eq_refl eq_refl)
    as (updated & H1 & H2 & H3 & _).
  exists updated. repeat split; assumption.
Defined.

(** A body without any field: the answer is 200 with the row as it was,
    and [updated_at] keeps its value. *)
Example empty_update_writes_nothing :
  Prisma.PUT_users_id toy_hash directory (Verified (mkJwt 2 user)) 2
    (mkBody None None None None None) 9000 "$2a$10$"
  = (json 200 (MessageUser "User updated successfully"
                 (select_public bob)), directory).
Proof. reflexivity. Qed.

(** *** Requests without a valid token *)

(** X25. Without a token, with a token that fails verification, or with
    the token of an account that no longer exists, every protected
    route of the Prisma revision answers 401 and writes nothing. *)
Theorem unauthenticated_requests_are_refused
    (bcrypt_hash : string -> string -> string) (tie : Audit.TieOrder)
    (db : Users) (st : Audit.AuditStore) (token : Token) (k : Z)
    (body : UpdateBody) (q : Audit.LogsQuery) (new_id now : Z)
    (salt : string) :
  (forall decoded, token = Verified decoded ->
                   findUnique db (userId decoded) = None) ->
  exists refusal,
    status refusal = 401 /\
    Prisma.GET_users_id db token k = refusal /\
    PrismaRoutes.GET_users db token = refusal /\
    PrismaRoutes.GET_session db token = refusal /\
    Audit.GET_audit_logs tie db st token q = refusal /\
    Prisma.PUT_users_id bcrypt_hash db token k body now salt
    = (refusal, db) /\
    PrismaRoutes.POST_users bcrypt_hash db token body new_id now salt
    = (refusal, db) /\
    PrismaRoutes.DELETE_users_id db st token k = (refusal, (db, st)).
Proof.
  intros Hgone.
  assert (Hauth : exists refusal,
            Prisma.authenticate db token = Reply refusal).
  { unfold Prisma.authenticate. destruct token as [| |decoded]; eauto.
    rewrite (Hgone decoded eq_refl). eauto. }
  destruct Hauth as (refusal & Hauth). exists refusal.
  split; [exact (authenticate_reply_status _ _ _ Hauth)|].
  unfold Prisma.GET_users_id, PrismaRoutes.GET_users,
    PrismaRoutes.GET_session, Audit.GET_audit_logs, Prisma.PUT_users_id,
    PrismaRoutes.POST_users, PrismaRoutes.DELETE_users_id.
  rewrite Hauth. repeat split; reflexivity.
Qed.

Lemma unauthenticated_requests_are_refused_witness :
  exists refusal,
    status refusal = 401 /\
    PrismaRoutes.DELETE_users_id directory empty_store
      (Verified (mkJwt 99 admin)) 2
    = (refusal, (directory, empty_store)).
Proof.
  destruct (unauthenticated_requests_are_refused toy_hash
              later_id_first directory empty_store (Verified (mkJwt 99 admin)) 2
              (mkBody None None None None None) (no_filter None None)
              5 9000 "$2a$10$")
    as (refusal & H1 & _ & _ & _ & _ & _ & _ & H8).
  - intros decoded Hd. injection Hd as <-. reflexivity.
  - exists refusal. split; assumption.
Defined.

(** *** The client address *)

Lemma includes_trimStart (c : ascii) (s : string) :
  Js.includes c (IpCapture.trimStart s) = true -> Js.includes c s = true.
Proof.
  induction s as [|d r IH]; simpl; [auto|].
  destruct (IpCapture.is_space d); [|auto].
  intros H. rewrite (IH H). apply Bool.orb_true_r.
Qed.

Lemma includes_trimEnd (c : ascii) (s : string) :
  Js.includes c (IpCapture.trimEnd s) = true -> Js.includes c s = true.
Proof.
  induction s as [|d r IH]; simpl; [auto|].
  destruct (IpCapture.trimEnd r) as [|x xs] eqn:E.
  - destruct (IpCapture.is_space d); simpl; [discriminate|].
    rewrite Bool.orb_false_r. intros ->. reflexivity.
  - simpl. intros H. apply Bool.orb_true_iff in H.
    destruct H as [-> | H]; [reflexivity|].
    simpl in IH. rewrite (IH H). apply Bool.orb_true_r.
Qed.

Lemma before_comma_clean (s : string) :
  Js.includes "," (IpCapture.before_comma s) = false.
Proof.
  induction s as [|d r IH]; [reflexivity|].
  cbn [IpCapture.before_comma].
  destruct (Ascii.eqb d ",") eqn:E; [reflexivity|].
  cbn [Js.includes]. rewrite IH, Bool.orb_false_r, Ascii.eqb_sym.
  exact E.
Qed.

Lemma trimEnd_idempotent (s : string) :
  IpCapture.trimEnd (IpCapture.trimEnd s) = IpCapture.trimEnd s.
Proof.
  induction s as [|d r IH]; simpl; [reflexivity|].
  destruct (IpCapture.trimEnd r) as [|x xs] eqn:E.
  - destruct (IpCapture.is_space d) eqn:Hd; simpl; [reflexivity|].
    now rewrite Hd.
  - change (IpCapture.trimEnd (String d (String x xs)) = String d (String x xs)).
    cbn [IpCapture.trimEnd]. cbn [IpCapture.trimEnd] in IH.
    now rewrite IH.
Qed.

Lemma trimStart_fixed (s : string) :
  IpCapture.trimStart (IpCapture.trimEnd (IpCapture.trimStart s))
  = IpCapture.trimEnd (IpCapture.trimStart s).
Proof.
  induction s as [|d r IH]; simpl; [reflexivity|].
  destruct (IpCapture.is_space d) eqn:Hd; [exact IH|].
  cbn [IpCapture.trimEnd].
  destruct (IpCapture.trimEnd r); rewrite ?Hd; simpl; now rewrite Hd.
Qed.

(** X26. The address [captureIp] stores never contains a comma and has
    no white space at either end (trimming it again changes nothing);
    and a non-empty [X-Forwarded-For] header alone decides it, whatever
    the socket's remote address is. *)
Theorem captured_ip_is_one_token (forwarded remote : option string) :
  Js.includes "," (IpCapture.captureIp forwarded remote) = false /\
  IpCapture.trim (IpCapture.captureIp forwarded remote)
  = IpCapture.captureIp forwarded remote /\
  (Js.truthy forwarded = true ->
   forall other,
     IpCapture.captureIp forwarded other
     = IpCapture.captureIp forwarded remote).
Proof.
  unfold IpCapture.captureIp, IpCapture.trim.
  set (source := if Js.truthy forwarded then _ else _).
  split; [|split].
  - destruct (Js.includes "," _) eqn:E; [|reflexivity].
    apply includes_trimEnd, includes_trimStart in E.
    now rewrite before_comma_clean in E.
  - rewrite trimStart_fixed. apply trimEnd_idempotent.
  - subst source. intros ->. reflexivity.
Qed.

Lemma captured_ip_is_one_token_witness :
  IpCapture.captureIp (Some " 203.0.113.7 , 10.0.0.1"%string)
    (Some "10.0.0.1"%string)
  = IpCapture.captureIp (Some " 203.0.113.7 , 10.0.0.1"%string) None.
Proof.
  symmetry.
  exact (proj2 (proj2 (captured_ip_is_one_token
                         (Some " 203.0.113.7 , 10.0.0.1"%string) None))
           eq_refl (Some "10.0.0.1"%string)).
Defined.

(** *** Accounts with an audit history *)

(** X27. An account that is the actor of an audit entry cannot be
    deleted: even an admin is answered 500 "Error deleting user", and
    neither table changes. *)
Theorem acting_user_cannot_be_deleted (db : Users)
    (st : Audit.AuditStore) (token : Token) (actor target : User) (k : Z)
    (e : AuditLog) :
  Prisma.authenticate db token = Continue actor ->
  role actor = admin -> id actor <> k ->
  findUnique db k = Some target ->
  In e (Audit.rows st) -> actor_user_id e = k ->
  PrismaRoutes.DELETE_users_id db st token k
  = (json 500 (Message "Error deleting user"), (db, st)).
Proof.
  intros Hauth Hrole Hk Hfind Hin He.
  unfold PrismaRoutes.DELETE_users_id. rewrite Hauth.
  unfold Prisma.checkUserPermissions. rewrite Hrole. simpl.
  apply Z.eqb_neq in Hk. rewrite Hk.
  unfold PrismaRoutes.delete_user_handler, PrismaRoutes.user_delete.
  rewrite Hfind.
  assert (Hex : existsb (fun x => actor_user_id x =? k) (Audit.rows st)
                = true).
  { apply existsb_exists. exists e. split; [exact Hin|].
    now apply Z.eqb_eq. }
  now rewrite Hex.
Qed.

Lemma acting_user_cannot_be_deleted_witness :
  PrismaRoutes.DELETE_users_id directory
    (Audit.mkStore [mkAuditLog 1 2 Audit.LOGOUT None MEmpty None 9000] 2)
    (Verified (mkJwt 1 admin)) 2
  = (json 500 (Message "Error deleting user"),
     (directory,
      Audit.mkStore [mkAuditLog 1 2 Audit.LOGOUT None MEmpty None 9000] 2)).
Proof.
  refine (acting_user_cannot_be_deleted directory _
            (Verified (mkJwt 1 admin)) alice bob 2
            (mkAuditLog 1 2 Audit.LOGOUT None MEmpty None 9000)
            eq_refl eq_refl _ eq_refl _ eq_refl).
  - discriminate.
  - left. reflexivity.
Defined.
